(** * ProgressPal: the progress store and the notification service

    A shallow embedding of [src/services/StorageService.ts] and
    [src/services/NotificationService.ts].

    Conventions of the embedding.
    - A JavaScript [Date] is its [getTime()] value, an integer number of
      milliseconds ([Z]).  The counters of [UserProgress] are integers.
      The two divisions by the length of a day are taken exactly
      ([Math.ceil] and [Math.floor] of a quotient of integers): this is
      what the doubles of the code give while the two instants are at
      most [2 ^ 53] ms apart, some 285,000 years.
    - The services are asynchronous and effectful: they read the wall
      clock, the key-value store (AsyncStorage), the file system and the
      device notification centre.  All of these live in a [World]; a
      service method is a function from the world to an outcome and the
      world it leaves behind.  A rejected promise and a [throw] are both
      [Thrown]; the effects made before the throw stay.
    - AsyncStorage maps keys to JSON text.  [JSON.stringify] followed by
      [JSON.parse] and the date revival of the getters gives back the
      record that was written, so the store holds the records themselves
      ([Doc]).
    - [console.log], [console.warn] and [console.error] are left out. *)

From Stdlib Require Import ZArith Ascii String List Lia.
From stdpp Require Import base option gmap strings list pretty.

Local Open Scope Z_scope.
Local Open Scope string_scope.

(** ** Data model *)

Inductive Angle := front | side | back.

Definition angle_text (a : Angle) : string :=
  match a with front => "front" | side => "side" | back => "back" end.

Record PhotoMetadata := {
  fileSize : Z;
  width : Z;
  height : Z;
}.

Record StoredPhoto := {
  id : string;
  dayNumber : Z;
  angle : Angle;
  photoUri : string;
  localPath : string;
  timestamp : Z;
  metadata : PhotoMetadata;
}.

Record UserProgress := {
  startDate : Z;
  currentStreak : Z;
  longestStreak : Z;
  totalPhotos : Z;
  lastPhotoDate : option Z;
  photos : list StoredPhoto;
}.

Inductive Gender := male | female | other_gender.
Inductive ActivityLevel := sedentary | light | moderate | active | very_active.
Inductive Goal := weight_loss | muscle_gain | general_fitness | body_recomposition.

Record UserProfile := {
  profile_id : string;
  age : Z;
  gender : Gender;
  profile_height : Z;
  weight : Z;
  activityLevel : ActivityLevel;
  goal : Goal;
  createdAt : Z;
  updatedAt : Z;
}.

Record AppState := {
  isInitialized : bool;
  onboardingCompleted : bool;
  lastActiveDate : Z;
}.

Module DailyReminder.
Record t := { enabled : bool; time : string }.
End DailyReminder.

Module StreakCelebration.
Record t := { enabled : bool; milestones : list Z }.
End StreakCelebration.

Module WeeklyProgress.
Record t := { enabled : bool; day : Z; time : string }.
End WeeklyProgress.

Module GraceReminder.
Record t := { enabled : bool; hoursAfterMissed : Z }.
End GraceReminder.

Record NotificationSettings := {
  dailyReminder : DailyReminder.t;
  streakCelebration : StreakCelebration.t;
  weeklyProgress : WeeklyProgress.t;
  graceReminder : GraceReminder.t;
}.

(** What a key of AsyncStorage holds. *)
Inductive Doc :=
  | DocProfile (p : UserProfile)
  | DocProgress (p : UserProgress)
  | DocAppState (a : AppState)
  | DocSettings (s : NotificationSettings)
  | DocText (s : string).

(** ** The device notification centre *)

Inductive Trigger :=
  | Immediately
  | Daily (hour minute : option Z)
  | Weekly (weekday : Z) (hour minute : option Z)
  | AtDate (date : Z).

Record NotificationContent := {
  title : string;
  body : string;
  data_type : string;
  data_streakDays : option Z;
  sound : bool;
}.

Record NotificationRequest := {
  content : NotificationContent;
  trigger : Trigger;
}.

(** The calls that reach the notification centre, in the order made. *)
Inductive NotifierCall :=
  | CallSchedule (r : NotificationRequest)
  | CallCancel (identifier : string)
  | CallCancelAll.

(** ** The world *)

(** Requests to the platform; [outage] says which of them are rejected. *)
Inductive Request :=
  | ReqGetItem (key : string)
  | ReqSetItem (key : string)
  | ReqRemoveItem (key : string)
  | ReqMultiRemove
  | ReqGetInfo (path : string)
  | ReqMakeDirectory (path : string)
  | ReqCopy (from to : string)
  | ReqDelete (path : string)
  | ReqGetPermissions
  | ReqSchedule
  | ReqCancel (identifier : string)
  | ReqCancelAll.

Record World := {
  clock : nat -> Z;               (* the k-th reading of the wall clock *)
  readings : nat;                 (* readings taken so far *)
  asyncStorage : gmap string Doc;
  documentDirectory : string;
  directories : gset string;
  files : gmap string Z;          (* path to size in bytes *)
  permission_granted : bool;
  scheduled : list (string * NotificationRequest);
  presented : list NotificationContent;
  notifier_calls : list NotifierCall;
  issued : nat;                   (* identifiers handed out so far *)
  outage : Request -> bool;
}.

Inductive Exn :=
  | Error (message : string)
  | TypeError (message : string)
  | Rejected (r : Request).

Inductive Outcome (A : Type) :=
  | Returned (a : A)
  | Thrown (e : Exn).
Arguments Returned {A} a.
Arguments Thrown {A} e.

Definition IO (A : Type) : Type := World -> Outcome A * World.

Definition io_ret {A} (a : A) : IO A := fun w => (Returned a, w).

Definition io_bind {A B} (m : IO A) (k : A -> IO B) : IO B :=
  fun w => match m w with
           | (Returned a, w') => k a w'
           | (Thrown e, w') => (Thrown e, w')
           end.

Definition throw {A} (e : Exn) : IO A := fun w => (Thrown e, w).

(** [try { m } catch (error) { handler error }] *)
Definition try_catch {A} (m : IO A) (handler : Exn -> IO A) : IO A :=
  fun w => match m w with
           | (Returned a, w') => (Returned a, w')
           | (Thrown e, w') => handler e w'
           end.

Declare Scope io_scope.
Delimit Scope io_scope with io.
Notation "x <- m ;; k" := (io_bind m (fun x => k))
  (at level 100, m at next level, right associativity) : io_scope.
Notation "m ;; k" := (io_bind m (fun _ => k))
  (at level 100, right associativity) : io_scope.
Local Open Scope io_scope.

(** The world after one more reading of the clock. *)
Definition tick (w : World) : World :=
  {| clock := clock w; readings := S (readings w);
     asyncStorage := asyncStorage w;
     documentDirectory := documentDirectory w;
     directories := directories w; files := files w;
     permission_granted := permission_granted w;
     scheduled := scheduled w; presented := presented w;
     notifier_calls := notifier_calls w; issued := issued w;
     outage := outage w |}.

(** [new Date()] and [Date.now()]: the time now, in milliseconds. *)
Definition new_Date : IO Z :=
  fun w => (Returned (clock w (readings w)), tick w).

(** A platform request that may be rejected. *)
Definition request {A} (r : Request) (run : IO A) : IO A :=
  fun w => if outage w r then (Thrown (Rejected r), w) else run w.

(** Field updates of the world. *)
Definition with_storage (s : gmap string Doc) (w : World) : World :=
  {| clock := clock w; readings := readings w; asyncStorage := s;
     documentDirectory := documentDirectory w;
     directories := directories w; files := files w;
     permission_granted := permission_granted w;
     scheduled := scheduled w; presented := presented w;
     notifier_calls := notifier_calls w; issued := issued w;
     outage := outage w |}.

Definition with_files (d : gset string) (f : gmap string Z) (w : World) : World :=
  {| clock := clock w; readings := readings w;
     asyncStorage := asyncStorage w;
     documentDirectory := documentDirectory w;
     directories := d; files := f;
     permission_granted := permission_granted w;
     scheduled := scheduled w; presented := presented w;
     notifier_calls := notifier_calls w; issued := issued w;
     outage := outage w |}.

Definition with_notifier (s : list (string * NotificationRequest))
    (p : list NotificationContent) (c : list NotifierCall) (n : nat)
    (w : World) : World :=
  {| clock := clock w; readings := readings w;
     asyncStorage := asyncStorage w;
     documentDirectory := documentDirectory w;
     directories := directories w; files := files w;
     permission_granted := permission_granted w;
     scheduled := s; presented := p; notifier_calls := c; issued := n;
     outage := outage w |}.

(** ** AsyncStorage *)

Module AsyncStorage.

Definition getItem (key : string) : IO (option Doc) :=
  request (ReqGetItem key) (fun w => (Returned (asyncStorage w !! key), w)).

Definition setItem (key : string) (value : Doc) : IO unit :=
  request (ReqSetItem key)
    (fun w => (Returned tt, with_storage (<[key := value]> (asyncStorage w)) w)).

Definition removeItem (key : string) : IO unit :=
  request (ReqRemoveItem key)
    (fun w => (Returned tt, with_storage (delete key (asyncStorage w)) w)).

Definition multiRemove (keys : list string) : IO unit :=
  request ReqMultiRemove
    (fun w => (Returned tt,
               with_storage (foldr delete (asyncStorage w) keys) w)).

End AsyncStorage.

(** ** expo-file-system *)

Module FileSystem.

Record FileInfo := { exists_ : bool; size : option Z }.

Definition getInfoAsync (path : string) : IO FileInfo :=
  request (ReqGetInfo path)
    (fun w =>
       (Returned
          (if decide (path ∈ directories w)
           then {| exists_ := true; size := None |}
           else match files w !! path with
                | Some n => {| exists_ := true; size := Some n |}
                | None => {| exists_ := false; size := None |}
                end), w)).

Definition makeDirectoryAsync (path : string) : IO unit :=
  request (ReqMakeDirectory path)
    (fun w => (Returned tt, with_files ({[path]} ∪ directories w) (files w) w)).

(** The copy is rejected when the platform refuses it or when there is
    nothing at [from]. *)
Definition copyAsync (from to : string) : IO unit :=
  request (ReqCopy from to)
    (fun w => match files w !! from with
              | Some n =>
                  (Returned tt, with_files (directories w) (<[to := n]> (files w)) w)
              | None => (Thrown (Rejected (ReqCopy from to)), w)
              end).

(** Deleting a directory takes what is under it. *)
Definition deleteAsync (path : string) : IO unit :=
  request (ReqDelete path)
    (fun w =>
       (Returned tt,
        with_files (directories w ∖ {[path]})
          (filter (fun kv => String.prefix path (fst kv) = false) (files w)) w)).

End FileSystem.

(** ** JavaScript arithmetic *)

Definition MS_PER_DAY : Z := 1000 * 60 * 60 * 24.

(** [Math.floor(a / b)] and [Math.ceil(a / b)] for an integer [a] and a
    positive integer [b], as the code computes them while [a] is at
    most [2 ^ 53] in size: beyond, the difference of two instants is
    rounded before it is divided. *)
Definition Math_floor_div (a b : Z) : Z := a / b.
Definition Math_ceil_div (a b : Z) : Z := - ((- a) / b).

(** [x || 0] on a possibly undefined number. *)
Definition or_zero (x : option Z) : Z :=
  match x with
  | Some n => n
  | None => 0
  end.

(** ** Further data *)

(** The local time of the device: what [getDate], [getMonth],
    [getFullYear] and [getHours] give for an instant, and the instant
    that [setHours] makes of one.  The time zone and its rules are the
    platform's; they are taken as given. *)
Record LocalTime := {
  getDate : Z -> Z;
  getMonth : Z -> Z;
  getFullYear : Z -> Z;
  getHours : Z -> Z;
  setHours : Z -> Z -> Z;
}.

Module InitializationStatus.
Record t := { isInitialized : bool; needsOnboarding : bool }.
End InitializationStatus.

(** ** StorageService *)

Module StorageService.

Definition USER_PROFILE_KEY : string := "user_profile".
Definition USER_PROGRESS_KEY : string := "user_progress".
Definition APP_STATE_KEY : string := "app_state".

Definition PHOTOS_DIR : IO string :=
  fun w => (Returned (documentDirectory w ++ "progress_photos/"), w).

Definition initialize : IO unit :=
  try_catch
    (dir <- PHOTOS_DIR ;;
     dirInfo <- FileSystem.getInfoAsync dir ;;
     if negb (FileSystem.exists_ dirInfo)
     then FileSystem.makeDirectoryAsync dir
     else io_ret tt)
    (fun error => throw error).

Definition initializeUser (userProfile : UserProfile) : IO unit :=
  try_catch
    (AsyncStorage.setItem USER_PROFILE_KEY (DocProfile userProfile) ;;
     start <- new_Date ;;
     let initialProgress :=
       {| startDate := start;
          currentStreak := 0;
          longestStreak := 0;
          totalPhotos := 0;
          lastPhotoDate := None;
          photos := [] |} in
     AsyncStorage.setItem USER_PROGRESS_KEY (DocProgress initialProgress) ;;
     active <- new_Date ;;
     let appState :=
       {| isInitialized := true;
          onboardingCompleted := true;
          lastActiveDate := active |} in
     AsyncStorage.setItem APP_STATE_KEY (DocAppState appState))
    (fun error => throw error).

(** Anything but a stored progress record makes the getter return
    [null]: nothing stored, a rejected read, or text that does not
    parse to a record with a [photos] array. *)
Definition getUserProgress : IO (option UserProgress) :=
  try_catch
    (data <- AsyncStorage.getItem USER_PROGRESS_KEY ;;
     match data with
     | None => io_ret None
     | Some (DocProgress progress) => io_ret (Some progress)
     | Some (DocText "") => io_ret None
     | Some _ => throw (TypeError "Cannot read properties of undefined (reading 'map')")
     end)
    (fun _ => io_ret None).

Definition calculateDayNumber (startDate : Z) : IO Z :=
  now <- new_Date ;;
  let diffTime := Z.abs (now - startDate) in
  let diffDays := Math_ceil_div diffTime MS_PER_DAY in
  io_ret diffDays.

(** [updateStreak] mutates the record it is given; here it returns the
    record as it is after the call. *)
Definition updateStreak (progress : UserProgress) : IO UserProgress :=
  today <- new_Date ;;
  let progress :=
    match lastPhotoDate progress with
    | None =>
        {| startDate := startDate progress;
           currentStreak := 1;
           longestStreak := longestStreak progress;
           totalPhotos := totalPhotos progress;
           lastPhotoDate := lastPhotoDate progress;
           photos := photos progress |}
    | Some last =>
        let daysDiff := Math_floor_div (today - last) MS_PER_DAY in
        if (daysDiff =? 1)%Z then
          {| startDate := startDate progress;
             currentStreak := currentStreak progress + 1;
             longestStreak := longestStreak progress;
             totalPhotos := totalPhotos progress;
             lastPhotoDate := lastPhotoDate progress;
             photos := photos progress |}
        else if (daysDiff =? 0)%Z then
          progress
        else
          {| startDate := startDate progress;
             currentStreak := 1;
             longestStreak := longestStreak progress;
             totalPhotos := totalPhotos progress;
             lastPhotoDate := lastPhotoDate progress;
             photos := photos progress |}
    end in
  io_ret
    (if (longestStreak progress <? currentStreak progress)%Z then
       {| startDate := startDate progress;
          currentStreak := currentStreak progress;
          longestStreak := currentStreak progress;
          totalPhotos := totalPhotos progress;
          lastPhotoDate := lastPhotoDate progress;
          photos := photos progress |}
     else progress).

(** The clock is read five times: for the day number, for the
    identifier, for [timestamp], for [lastPhotoDate], and in
    [updateStreak].  The pushed record, the new [totalPhotos] and the
    new [lastPhotoDate] are in [progress] when [updateStreak] is called
    on it. *)
Definition savePhoto (photoUri : string) (angle : Angle) : IO StoredPhoto :=
  try_catch
    (initialize ;;
     progress <- getUserProgress ;;
     match progress with
     | None => throw (Error "User progress not found")
     | Some progress =>
         dayNumber <- calculateDayNumber (startDate progress) ;;
         stamp <- new_Date ;;
         let photoId := pretty dayNumber ++ "_" ++ angle_text angle ++ "_" ++ pretty stamp in
         dir <- PHOTOS_DIR ;;
         let localPath := dir ++ photoId ++ ".jpg" in
         FileSystem.copyAsync photoUri localPath ;;
         fileInfo <- FileSystem.getInfoAsync localPath ;;
         taken <- new_Date ;;
         let storedPhoto :=
           {| id := photoId;
              dayNumber := dayNumber;
              angle := angle;
              photoUri := photoUri;
              localPath := localPath;
              timestamp := taken;
              metadata := {| fileSize := or_zero (FileSystem.size fileInfo);
                             width := 0;
                             height := 0 |} |} in
         let photos' := (photos progress ++ [storedPhoto])%list in
         last <- new_Date ;;
         let progress :=
           {| startDate := startDate progress;
              currentStreak := currentStreak progress;
              longestStreak := longestStreak progress;
              totalPhotos := Z.of_nat (length photos');
              lastPhotoDate := Some last;
              photos := photos' |} in
         progress <- updateStreak progress ;;
         AsyncStorage.setItem USER_PROGRESS_KEY (DocProgress progress) ;;
         io_ret storedPhoto
     end)
    (fun error => throw error).

Definition clearAllData : IO unit :=
  try_catch
    (AsyncStorage.multiRemove [USER_PROFILE_KEY; USER_PROGRESS_KEY; APP_STATE_KEY] ;;
     dir <- PHOTOS_DIR ;;
     dirInfo <- FileSystem.getInfoAsync dir ;;
     if FileSystem.exists_ dirInfo
     then FileSystem.deleteAsync dir
     else io_ret tt)
    (fun error => throw error).

Definition hasTakenPhotoToday (zone : LocalTime) : IO bool :=
  try_catch
    (progress <- getUserProgress ;;
     match progress with
     | None => io_ret false
     | Some progress =>
         match lastPhotoDate progress with
         | None => io_ret false
         | Some lastPhotoDate =>
             today <- new_Date ;;
             io_ret
               ((getDate zone today =? getDate zone lastPhotoDate)%Z &&
                (getMonth zone today =? getMonth zone lastPhotoDate)%Z &&
                (getFullYear zone today =? getFullYear zone lastPhotoDate)%Z)
         end
     end)
    (fun _ => io_ret false).


(** [appState.isInitialized || false] and [!appState.onboardingCompleted]
    on what is parsed from the text under [app_state]: a record of
    another kind has neither property, and text that is no record gives
    the answer of the [catch] or has neither property. *)
Definition checkInitialization : IO InitializationStatus.t :=
  let not_set :=
    {| InitializationStatus.isInitialized := false;
       InitializationStatus.needsOnboarding := true |} in
  try_catch
    (appStateData <- AsyncStorage.getItem APP_STATE_KEY ;;
     userProfileData <- AsyncStorage.getItem USER_PROFILE_KEY ;;
     match appStateData, userProfileData with
     | None, _ | Some (DocText ""), _ | _, None | _, Some (DocText "") =>
         io_ret not_set
     | Some (DocAppState appState), _ =>
         io_ret
           {| InitializationStatus.isInitialized := isInitialized appState || false;
              InitializationStatus.needsOnboarding :=
                negb (onboardingCompleted appState) |}
     | Some _, _ => io_ret not_set
     end)
    (fun _ => io_ret not_set).

End StorageService.

(** ** expo-notifications *)

Module Notifications.

Definition record_call (c : NotifierCall) : IO unit :=
  fun w => (Returned tt,
            with_notifier (scheduled w) (presented w)
              (notifier_calls w ++ [c])%list (issued w) w).

Definition getPermissionsAsync : IO bool :=
  request ReqGetPermissions (fun w => (Returned (permission_granted w), w)).

(** A [null] trigger presents the notification at once; any other
    trigger leaves it scheduled under a new identifier. *)
Definition scheduleNotificationAsync (r : NotificationRequest) : IO string :=
  record_call (CallSchedule r) ;;
  request ReqSchedule
    (fun w =>
       let identifier := "notification-" ++ pretty (Z.of_nat (issued w)) in
       (Returned identifier,
        match trigger r with
        | Immediately =>
            with_notifier (scheduled w) (presented w ++ [content r])%list
              (notifier_calls w) (S (issued w)) w
        | _ =>
            with_notifier (scheduled w ++ [(identifier, r)])%list (presented w)
              (notifier_calls w) (S (issued w)) w
        end)).

Definition cancelScheduledNotificationAsync (identifier : string) : IO unit :=
  record_call (CallCancel identifier) ;;
  request (ReqCancel identifier)
    (fun w =>
       (Returned tt,
        with_notifier
          (filter (fun entry => fst entry ≠ identifier) (scheduled w))
          (presented w) (notifier_calls w) (issued w) w)).

Definition cancelAllScheduledNotificationsAsync : IO unit :=
  record_call CallCancelAll ;;
  request ReqCancelAll
    (fun w =>
       (Returned tt,
        with_notifier [] (presented w) (notifier_calls w) (issued w) w)).

End Notifications.

(** ** Values at run time *)

(** The value of an expression whose static type is [A]: the object, or
    the promise that an [async] method hands back when its call is not
    awaited. *)
Inductive Js (A : Type) :=
  | Plain (a : A)
  | Promise (pending : IO A).
Arguments Plain {A} a.
Arguments Promise {A} pending.

(** [v.field].  A promise has none of the properties of the value it
    settles to: the read gives [undefined]. *)
Definition member {A B} (v : Js A) (field : A -> B) : option B :=
  match v with
  | Plain a => Some (field a)
  | Promise _ => None
  end.

(** [u.name] where [u] may be [undefined]. *)
Definition read {B C} (u : option B) (name : string) (field : B -> C) : IO C :=
  match u with
  | Some b => io_ret (field b)
  | None =>
      throw (TypeError ("Cannot read properties of undefined (reading '" ++ name ++ "')"))
  end.

(** [s.split(':')] *)
Fixpoint split_colon (s : string) : list string :=
  match s with
  | EmptyString => [EmptyString]
  | String c rest =>
      if Ascii.eqb c ":"%char then EmptyString :: split_colon rest
      else match split_colon rest with
           | part :: parts => String c part :: parts
           | [] => [String c EmptyString]
           end
  end.

(** [Number(s)] on a run of decimal digits; [None] is [NaN].  Spaces,
    signs, fractions and exponents do not occur in an [HH:MM] time and
    are read as [NaN] here. *)
Fixpoint digits_value (acc : Z) (s : string) : option Z :=
  match s with
  | EmptyString => Some acc
  | String c rest =>
      let n := Z.of_N (Ascii.N_of_ascii c) in
      if ((48 <=? n) && (n <=? 57))%Z
      then digits_value (10 * acc + (n - 48)) rest
      else None
  end.

Definition Number (s : string) : option Z := digits_value 0 s.

(** ** NotificationService *)

Module NotificationService.

Definition STORAGE_PREFIX : string := "notifications_".

Module storage.
Definition set (key : string) (value : Doc) : IO unit :=
  AsyncStorage.setItem (STORAGE_PREFIX ++ key) value.
Definition getString (key : string) : IO (option Doc) :=
  AsyncStorage.getItem (STORAGE_PREFIX ++ key).
Definition delete (key : string) : IO unit :=
  AsyncStorage.removeItem (STORAGE_PREFIX ++ key).
End storage.

Module NOTIFICATION_KEYS.
Definition SETTINGS : string := "notification_settings".
Definition PERMISSION_GRANTED : string := "permission_granted".
Definition PUSH_TOKEN : string := "push_token".
Definition DAILY_REMINDER_ID : string := "daily_reminder_id".
Definition STREAK_CELEBRATION_ENABLED : string := "streak_celebration_enabled".
End NOTIFICATION_KEYS.

Definition DEFAULT_SETTINGS : NotificationSettings :=
  {| dailyReminder :=
       {| DailyReminder.enabled := true; DailyReminder.time := "18:00" |};
     streakCelebration :=
       {| StreakCelebration.enabled := true;
          StreakCelebration.milestones := [3; 7; 14; 30; 60; 90; 180; 365] |};
     weeklyProgress :=
       {| WeeklyProgress.enabled := true;
          WeeklyProgress.day := 0;
          WeeklyProgress.time := "10:00" |};
     graceReminder :=
       {| GraceReminder.enabled := true;
          GraceReminder.hoursAfterMissed := 12 |} |}.

Definition hasPermissions : IO bool :=
  try_catch Notifications.getPermissionsAsync (fun _ => io_ret false).

(** The settings key is written by [saveSettings] only; text under it
    that is not a settings record is taken as unparsable. *)
Definition getSettings : IO NotificationSettings :=
  try_catch
    (settingsData <- storage.getString NOTIFICATION_KEYS.SETTINGS ;;
     match settingsData with
     | None => io_ret DEFAULT_SETTINGS
     | Some (DocText "") => io_ret DEFAULT_SETTINGS
     | Some (DocSettings settings) => io_ret settings
     | Some _ => throw (Error "JSON Parse error")
     end)
    (fun _ => io_ret DEFAULT_SETTINGS).

(** The text under a key, as [storage.getString] gives it.  A stored
    record stands for its JSON text, which is not empty. *)
Definition text_of (d : Doc) : string :=
  match d with
  | DocText s => s
  | DocProfile _ => "{profile}"
  | DocProgress _ => "{progress}"
  | DocAppState _ => "{appState}"
  | DocSettings _ => "{settings}"
  end.

Definition cancelDailyReminder : IO unit :=
  try_catch
    (existingId <- storage.getString NOTIFICATION_KEYS.DAILY_REMINDER_ID ;;
     match text_of <$> existingId with
     | None | Some "" => io_ret tt
     | Some existingId =>
         Notifications.cancelScheduledNotificationAsync existingId ;;
         storage.delete NOTIFICATION_KEYS.DAILY_REMINDER_ID
     end)
    (fun _ => io_ret tt).

(** The body of [scheduleDailyReminder], given what
    [const settings = this.getSettings()] is bound to. *)
Definition scheduleDailyReminder_body (settings : Js NotificationSettings) : IO unit :=
  enabled <- read (member settings dailyReminder) "enabled" DailyReminder.enabled ;;
  if negb enabled then cancelDailyReminder
  else
    cancelDailyReminder ;;
    time <- read (member settings dailyReminder) "time" DailyReminder.time ;;
    let parts := map Number (split_colon time) in
    let hours := mjoin (parts !! 0%nat) in
    let minutes := mjoin (parts !! 1%nat) in
    identifier <-
      Notifications.scheduleNotificationAsync
        {| content :=
             {| title := "📸 Time for your progress photo!";
                body := "Don't break your streak! Take today's progress photo to keep your momentum going.";
                data_type := "daily_reminder";
                data_streakDays := None;
                sound := true |};
           trigger := Daily hours minutes |} ;;
    storage.set NOTIFICATION_KEYS.DAILY_REMINDER_ID (DocText identifier).

(** [getSettings] is [async] and the call is not awaited: [settings]
    is the promise.  Up to its first [await] the call only starts a
    read of the store, which leaves the world as it is. *)
Definition scheduleDailyReminder : IO unit :=
  try_catch
    (scheduleDailyReminder_body (Promise getSettings))
    (fun _ => io_ret tt).

Definition celebration_copy (streakDays : Z) : string * string :=
  if (streakDays <=? 7)%Z then
    ("🔥 " ++ pretty streakDays ++ " Day Streak!",
     "You're building momentum! Keep going strong!")
  else if (streakDays <=? 30)%Z then
    ("💪 " ++ pretty streakDays ++ " Day Streak!",
     "Amazing consistency! Your dedication is showing results!")
  else if (streakDays <=? 90)%Z then
    ("🚀 " ++ pretty streakDays ++ " Day Streak!",
     "Incredible! You're a progress tracking champion!")
  else
    ("👑 " ++ pretty streakDays ++ " Day Streak!",
     "LEGENDARY! You're an inspiration to everyone!").

(** The body of [sendStreakCelebration], given what
    [const settings = this.getSettings()] is bound to. *)
Definition sendStreakCelebration_body (settings : Js NotificationSettings)
    (streakDays : Z) : IO unit :=
  enabled <- read (member settings streakCelebration) "enabled"
               StreakCelebration.enabled ;;
  if negb enabled then io_ret tt
  else
    milestones <- read (member settings streakCelebration) "milestones"
                    StreakCelebration.milestones ;;
    if negb (bool_decide (streakDays ∈ milestones)) then io_ret tt
    else
      Notifications.scheduleNotificationAsync
        {| content :=
             {| title := fst (celebration_copy streakDays);
                body := snd (celebration_copy streakDays);
                data_type := "streak_celebration";
                data_streakDays := Some streakDays;
                sound := true |};
           trigger := Immediately |} ;;
      io_ret tt.

Definition sendStreakCelebration (streakDays : Z) : IO unit :=
  try_catch
    (sendStreakCelebration_body (Promise getSettings) streakDays)
    (fun _ => io_ret tt).

Definition scheduleWeeklyProgress_body (settings : Js NotificationSettings) : IO unit :=
  enabled <- read (member settings weeklyProgress) "enabled" WeeklyProgress.enabled ;;
  if negb enabled then io_ret tt
  else
    time <- read (member settings weeklyProgress) "time" WeeklyProgress.time ;;
    let parts := map Number (split_colon time) in
    let hours := mjoin (parts !! 0%nat) in
    let minutes := mjoin (parts !! 1%nat) in
    day <- read (member settings weeklyProgress) "day" WeeklyProgress.day ;;
    Notifications.scheduleNotificationAsync
      {| content :=
           {| title := "📊 Weekly Progress Update";
              body := "Check out your weekly progress and see how far you've come!";
              data_type := "weekly_progress";
              data_streakDays := None;
              sound := true |};
         trigger := Weekly (day + 1) hours minutes |} ;;
    io_ret tt.

Definition scheduleWeeklyProgress : IO unit :=
  try_catch
    (scheduleWeeklyProgress_body (Promise getSettings))
    (fun _ => io_ret tt).

(** [Promise.all] starts the two calls in order, and each runs to its
    end before the next starts when nothing in it waits. *)
Definition scheduleAllNotifications : IO unit :=
  try_catch
    (Notifications.cancelAllScheduledNotificationsAsync ;;
     granted <- hasPermissions ;;
     if negb granted then io_ret tt
     else
       scheduleDailyReminder ;;
       scheduleWeeklyProgress)
    (fun _ => io_ret tt).

(** The call of [scheduleAllNotifications] is not awaited; it runs all
    the same, and never rejects. *)
Definition saveSettings (settings : NotificationSettings) : IO unit :=
  try_catch
    (storage.set NOTIFICATION_KEYS.SETTINGS (DocSettings settings) ;;
     scheduleAllNotifications)
    (fun _ => io_ret tt).

Definition cancelAllNotifications : IO unit :=
  try_catch
    Notifications.cancelAllScheduledNotificationsAsync
    (fun _ => io_ret tt).

(** The body of [scheduleGraceReminder], given what
    [const settings = this.getSettings()] is bound to. *)
Definition scheduleGraceReminder_body (zone : LocalTime)
    (settings : Js NotificationSettings) : IO unit :=
  enabled <- read (member settings graceReminder) "enabled" GraceReminder.enabled ;;
  if negb enabled then io_ret tt
  else
    delayHours <- read (member settings graceReminder) "hoursAfterMissed"
                    GraceReminder.hoursAfterMissed ;;
    triggerDate <- new_Date ;;
    let triggerDate := setHours zone triggerDate (getHours zone triggerDate + delayHours) in
    Notifications.scheduleNotificationAsync
      {| content :=
           {| title := "⏰ Don't lose your streak!";
              body := "You haven't taken your progress photo today. Take it now to keep your streak alive!";
              data_type := "grace_reminder";
              data_streakDays := None;
              sound := true |};
         trigger := AtDate triggerDate |} ;;
    io_ret tt.

Definition scheduleGraceReminder (zone : LocalTime) : IO unit :=
  try_catch
    (scheduleGraceReminder_body zone (Promise getSettings))
    (fun _ => io_ret tt).

End NotificationService.

(** ** Persisted progress, reachable states, the stated day-number rule *)

(** The progress record under [user_progress], if there is one. *)
Definition stored_progress (w : World) : option UserProgress :=
  match asyncStorage w !! StorageService.USER_PROGRESS_KEY with
  | Some (DocProgress p) => Some p
  | _ => None
  end.

(** The progress records the app can hold: the one written by a
    successful [initializeUser], and the one found after [savePhoto]
    was run, in whatever world, on a record already reached. *)
Inductive reachable : UserProgress -> Prop :=
  | reach_init (userProfile : UserProfile) (w : World) (p : UserProgress) :
      fst (StorageService.initializeUser userProfile w) = Returned tt ->
      stored_progress (snd (StorageService.initializeUser userProfile w)) = Some p ->
      reachable p
  | reach_save (photoUri : string) (a : Angle) (w : World) (p p' : UserProgress) :
      reachable p ->
      stored_progress w = Some p ->
      stored_progress (snd (StorageService.savePhoto photoUri a w)) = Some p' ->
      reachable p'.

(** The day-number rule in the words of the specification:
    [ceil((capturedAt - startDate) / 24h)], with a floor of 1. *)
Definition spec_dayNumber (capturedAt startDate : Z) : Z :=
  Z.max 1 (Math_ceil_div (capturedAt - startDate) MS_PER_DAY).

(** ** The profile store

    The second storage service of the repository: the class
    [StorageService] whose instance is exported as [storageService]; it
    keeps the profile and the onboarding flag. *)

Module storageService.

Module STORAGE_KEYS.
Definition USER_PROFILE : string := "user_profile".
Definition ONBOARDING_COMPLETED : string := "onboarding_completed".
Definition PHOTOS : string := "progress_photos".
Definition SETTINGS : string := "app_settings".
End STORAGE_KEYS.

Definition initializeUser (profile : UserProfile) : IO unit :=
  try_catch
    (AsyncStorage.setItem STORAGE_KEYS.USER_PROFILE (DocProfile profile) ;;
     AsyncStorage.setItem STORAGE_KEYS.ONBOARDING_COMPLETED (DocText "true"))
    (fun error => throw error).

(** [onboardingCompleted === 'true' && userProfile !== null]: the flag
    is compared as text, the profile only has to be there. *)
Definition isUserInitialized : IO bool :=
  try_catch
    (onboardingCompleted <- AsyncStorage.getItem STORAGE_KEYS.ONBOARDING_COMPLETED ;;
     userProfile <- AsyncStorage.getItem STORAGE_KEYS.USER_PROFILE ;;
     io_ret
       (match onboardingCompleted with
        | Some (DocText "true") => true
        | _ => false
        end && bool_decide (is_Some userProfile)))
    (fun _ => io_ret false).

Definition clearAllData : IO unit :=
  try_catch
    (AsyncStorage.multiRemove
       [STORAGE_KEYS.USER_PROFILE; STORAGE_KEYS.ONBOARDING_COMPLETED;
        STORAGE_KEYS.PHOTOS; STORAGE_KEYS.SETTINGS])
    (fun error => throw error).

End storageService.

(** A progress record and one that a run of [savePhoto] calls, in
    whatever worlds and with whatever outcomes, makes of it. *)
Inductive saves_to : UserProgress -> UserProgress -> Prop :=
  | saves_none (p : UserProgress) : saves_to p p
  | saves_more (photoUri : string) (a : Angle) (w : World) (p p' p'' : UserProgress) :
      saves_to p p' ->
      stored_progress w = Some p' ->
      stored_progress (snd (StorageService.savePhoto photoUri a w)) = Some p'' ->
      saves_to p p''.

(** ** Sample worlds *)

Definition camera_file : string := "file:///cache/Camera/shot.jpg".

(** A device on which every request is served, with one shot in the
    camera cache. *)
Definition device (time : nat -> Z) (store : gmap string Doc) : World :=
  {| clock := time;
     readings := 0;
     asyncStorage := store;
     documentDirectory := "file:///data/";
     directories := ∅;
     files := {[ camera_file := 204800 ]};
     permission_granted := true;
     scheduled := [];
     presented := [];
     notifier_calls := [];
     issued := 0;
     outage := fun _ => false |}.

(** The same device at another time. *)
Definition later (time : nat -> Z) (w : World) : World :=
  {| clock := time; readings := 0;
     asyncStorage := asyncStorage w;
     documentDirectory := documentDirectory w;
     directories := directories w; files := files w;
     permission_granted := permission_granted w;
     scheduled := scheduled w; presented := presented w;
     notifier_calls := notifier_calls w; issued := issued w;
     outage := outage w |}.

(** 2023-11-14 12:00:00 UTC. *)
Definition noon : Z := 1699963200000.

(** A clock that starts at [t] and moves on by one millisecond from one
    reading to the next. *)
Definition clock_from (t : Z) : nat -> Z := fun k => t + Z.of_nat k.

Definition sample_profile : UserProfile :=
  {| profile_id := "user-1"; age := 31; gender := female;
     profile_height := 170; weight := 64; activityLevel := moderate;
     goal := general_fitness; createdAt := noon; updatedAt := noon |}.

(** The user is initialised at [noon]... *)
Definition onboarded : World :=
  snd (StorageService.initializeUser sample_profile (device (clock_from noon) ∅)).

Definition fresh_record : UserProgress :=
  {| startDate := noon;
     currentStreak := 0;
     longestStreak := 0;
     totalPhotos := 0;
     lastPhotoDate := None;
     photos := [] |}.

(** ... and takes the first photo a minute later. *)
Definition after_first_photo : World :=
  snd (StorageService.savePhoto camera_file front
         (later (clock_from (noon + 60000)) onboarded)).

Definition first_photo : StoredPhoto :=
  {| id := "1_front_1699963260001";
     dayNumber := 1; angle := front; photoUri := camera_file;
     localPath := "file:///data/progress_photos/1_front_1699963260001.jpg";
     timestamp := noon + 60002;
     metadata := {| fileSize := 204800; width := 0; height := 0 |} |}.

(** The record found in the store after the first photo. *)
Definition first_record : UserProgress :=
  {| startDate := noon;
     currentStreak := 0;
     longestStreak := 0;
     totalPhotos := 1;
     lastPhotoDate := Some (noon + 60003);
     photos := [first_photo] |}.

(** A device whose local time is UTC.  The date of an instant is
    worked out from its day number in the proleptic Gregorian calendar,
    by eras of 400 years; months count from 0 as in JavaScript. *)
Definition utc_date (t : Z) : Z * Z * Z :=
  let z := t / MS_PER_DAY + 719468 in
  let era := z / 146097 in
  let doe := z - era * 146097 in
  let yoe := (doe - doe / 1460 + doe / 36524 - doe / 146096) / 365 in
  let doy := doe - (365 * yoe + yoe / 4 - yoe / 100) in
  let mp := (5 * doy + 2) / 153 in
  let d := doy - (153 * mp + 2) / 5 + 1 in
  let m := if (mp <? 10)%Z then mp + 3 else mp - 9 in
  let y := yoe + era * 400 + (if (m <=? 2)%Z then 1 else 0) in
  (y, m - 1, d).

Definition utc : LocalTime :=
  {| getDate := fun t => snd (utc_date t);
     getMonth := fun t => snd (fst (utc_date t));
     getFullYear := fun t => fst (fst (utc_date t));
     getHours := fun t => (t / 3600000) mod 24;
     setHours := fun t h => t + (h - (t / 3600000) mod 24) * 3600000 |}.

(** A repeating notification of another sender on the same device. *)
Definition foreign_reminder : NotificationRequest :=
  {| content :=
       {| title := "Stand up";
          body := "Time to stretch your legs.";
          data_type := "other_sender";
          data_streakDays := None;
          sound := false |};
     trigger := Daily (Some 9) (Some 0) |}.

Definition shared_device : World :=
  with_notifier [("other-1", foreign_reminder)] [] [] 1
    (device (clock_from noon) ∅).

(** Projections of an updated world. *)
Ltac world_simpl :=
  cbn [fst snd negb orb andb clock readings asyncStorage documentDirectory
       directories files permission_granted scheduled presented notifier_calls
       issued outage with_storage with_files with_notifier tick
       FileSystem.exists_ FileSystem.size].

(** Case analysis on the integer tests of a goal. *)
Ltac z_tests :=
  repeat match goal with
    | |- context [(?a <? ?b)%Z] => destruct (Z.ltb_spec a b); simpl
    | |- context [(?a =? ?b)%Z] => destruct (Z.eqb_spec a b); simpl
    end.

Import StorageService.
Import NotificationService.

(** * Properties *)


(** ** Running the primitives *)

Lemma with_files_id w : with_files (directories w) (files w) w = w.
Proof. by destruct w. Qed.

Lemma try_catch_rethrow {A} (m : IO A) w :
  try_catch m (fun error => throw error) w = m w.
Proof. unfold try_catch, throw. by destruct (m w) as [[?|?] ?]. Qed.

Lemma bind_run {A B} (m : IO A) (k : A -> IO B) w a w1 :
  m w = (Returned a, w1) -> io_bind m k w = k a w1.
Proof. unfold io_bind. by intros ->. Qed.

Lemma bind_abort {A B} (m : IO A) (k : A -> IO B) w e w1 :
  m w = (Thrown e, w1) -> io_bind m k w = (Thrown e, w1).
Proof. unfold io_bind. by intros ->. Qed.

Lemma new_Date_run w : new_Date w = (Returned (clock w (readings w)), tick w).
Proof. reflexivity. Qed.

Lemma PHOTOS_DIR_run w :
  PHOTOS_DIR w = (Returned (documentDirectory w ++ "progress_photos/"), w).
Proof. reflexivity. Qed.

(** [initialize] touches the directories only, and fails only when one
    of its two requests is rejected. *)
Lemma initialize_run w :
  exists r d, initialize w = (r, with_files d (files w) w) /\
              (forall e, r = Thrown e ->
                 exists q, outage w q = true /\ forall s t, q <> ReqCopy s t).
Proof.
  unfold initialize. rewrite try_catch_rethrow.
  unfold io_bind, PHOTOS_DIR, FileSystem.getInfoAsync,
    FileSystem.makeDirectoryAsync, request, io_ret.
  repeat (case_match; simplify_eq/=).
  all: first
    [ eexists _, _; split; [reflexivity|]; intros ? [=]; by eauto
    | match goal with
      | |- exists r d, (_, ?v) = _ /\ _ =>
          eexists _, (directories v); rewrite with_files_id;
          split; [reflexivity|]; intros ? [=]; by eauto
      end ].
Qed.

(** [getUserProgress] never throws and leaves the world as it is. *)
Lemma getUserProgress_run w :
  exists o, getUserProgress w = (Returned o, w) /\
            (forall p, o = Some p -> stored_progress w = Some p) /\
            (outage w (ReqGetItem USER_PROGRESS_KEY) = false ->
             o = stored_progress w).
Proof.
  unfold getUserProgress, try_catch, io_bind, AsyncStorage.getItem, request,
    stored_progress, io_ret, throw.
  destruct (outage w _); [eexists; split; [reflexivity|]; by split |].
  destruct (asyncStorage w !! USER_PROGRESS_KEY) as [[?|?|?|?|[|??]]|];
    (eexists; split; [reflexivity|]; split; [by intros ? [= ->] | done]).
Qed.

Lemma calculateDayNumber_run start w :
  calculateDayNumber start w =
  (Returned (Math_ceil_div (Z.abs (clock w (readings w) - start)) MS_PER_DAY),
   tick w).
Proof. reflexivity. Qed.

Lemma copyAsync_run src dst w :
  (exists n, files w !! src = Some n /\ outage w (ReqCopy src dst) = false /\
     FileSystem.copyAsync src dst w =
     (Returned tt, with_files (directories w) (<[dst := n]> (files w)) w)) \/
  ((files w !! src = None \/ outage w (ReqCopy src dst) = true) /\
     FileSystem.copyAsync src dst w = (Thrown (Rejected (ReqCopy src dst)), w)).
Proof.
  unfold FileSystem.copyAsync, request.
  destruct (outage w _); [right; eauto|].
  destruct (files w !! src); [left; eauto | right; eauto].
Qed.

Lemma getInfoAsync_run path w :
  exists r, FileSystem.getInfoAsync path w = (r, w) /\
            (forall e, r = Thrown e -> outage w (ReqGetInfo path) = true).
Proof.
  unfold FileSystem.getInfoAsync, request.
  destruct (outage w _) eqn:E; eexists; (split; [reflexivity|]); by intros ? [=].
Qed.

Lemma setItem_run key value w :
  (outage w (ReqSetItem key) = false /\
   AsyncStorage.setItem key value w =
   (Returned tt, with_storage (<[key := value]> (asyncStorage w)) w)) \/
  (outage w (ReqSetItem key) = true /\
   AsyncStorage.setItem key value w = (Thrown (Rejected (ReqSetItem key)), w)).
Proof.
  unfold AsyncStorage.setItem, request. destruct (outage w _); eauto.
Qed.

(** ** The streak transition *)

(** [updateStreak] always returns, after one reading of the clock; it
    keeps the other fields, ends with [currentStreak <= longestStreak]
    and never lowers [longestStreak]. *)
Lemma updateStreak_run p w :
  exists p', updateStreak p w = (Returned p', tick w) /\
    startDate p' = startDate p /\ totalPhotos p' = totalPhotos p /\
    lastPhotoDate p' = lastPhotoDate p /\ photos p' = photos p /\
    currentStreak p' <= longestStreak p' /\
    longestStreak p <= longestStreak p'.
Proof.
  unfold updateStreak, io_bind, new_Date, io_ret.
  eexists; split; [reflexivity|].
  destruct (lastPhotoDate p) as [last|] eqn:Hlast; simpl; z_tests;
    rewrite ?Hlast; repeat split; simpl in *; lia.
Qed.

(** The four branches of [updateStreak], by the stored [lastPhotoDate]
    and the whole days elapsed since. *)
Lemma updateStreak_currentStreak p w p' :
  fst (updateStreak p w) = Returned p' ->
  currentStreak p' =
  match lastPhotoDate p with
  | None => 1
  | Some last =>
      let daysDiff := (clock w (readings w) - last) / MS_PER_DAY in
      if decide (daysDiff = 1) then currentStreak p + 1
      else if decide (daysDiff = 0) then currentStreak p
      else 1
  end.
Proof.
  unfold updateStreak, io_bind, new_Date, io_ret, Math_floor_div. simpl.
  intros [= <-].
  destruct (lastPhotoDate p) as [last|]; simpl; z_tests;
    repeat case_decide; simpl; lia.
Qed.

(** Less than a day after the stored [lastPhotoDate], the streak stays. *)
Lemma updateStreak_same_day p w last p' :
  lastPhotoDate p = Some last ->
  0 <= clock w (readings w) - last < MS_PER_DAY ->
  fst (updateStreak p w) = Returned p' ->
  currentStreak p' = currentStreak p.
Proof.
  intros Hlast Hnow Hrun.
  rewrite (updateStreak_currentStreak _ _ _ Hrun), Hlast. simpl.
  rewrite (Z.div_small _ _ Hnow).
  repeat case_decide; lia.
Qed.

(** ** savePhoto *)

(** Either [savePhoto] throws and the store is as before (and then a
    request was rejected, or no progress record is stored, or there is
    nothing at [photoUri]); or it returns the new record, and the store
    has the progress record that [updateStreak] leaves, at the fifth
    reading of the clock, of the stored one extended by the new photo
    and dated at the fourth reading. *)
Lemma savePhoto_run photoUri a w :
  (exists e, fst (savePhoto photoUri a w) = Thrown e /\
             asyncStorage (snd (savePhoto photoUri a w)) = asyncStorage w /\
             ((exists q, outage w q = true) \/ stored_progress w = None \/
              files w !! photoUri = None)) \/
  (exists photo p p' w4,
     fst (savePhoto photoUri a w) = Returned photo /\
     stored_progress w = Some p /\
     is_Some (files w !! photoUri) /\
     outage w (ReqCopy photoUri (localPath photo)) = false /\
     clock w4 = clock w /\ readings w4 = (4 + readings w)%nat /\
     fst (updateStreak
            {| startDate := startDate p;
               currentStreak := currentStreak p;
               longestStreak := longestStreak p;
               totalPhotos := Z.of_nat (length (photos p ++ [photo]));
               lastPhotoDate := Some (clock w (3 + readings w)%nat);
               photos := photos p ++ [photo] |} w4) = Returned p' /\
     asyncStorage (snd (savePhoto photoUri a w)) =
       <[USER_PROGRESS_KEY := DocProgress p']> (asyncStorage w)).
Proof.
  unfold savePhoto. rewrite try_catch_rethrow.
  destruct (initialize_run w) as (r0 & d & E0 & C0).
  destruct r0 as [[]|e];
    [ rewrite (bind_run _ _ _ _ _ E0)
    | rewrite (bind_abort _ _ _ _ _ E0); left;
      destruct (C0 e eq_refl) as (q & Hq & _); by eauto 6 ].
  set (w1 := with_files d (files w) w).
  destruct (getUserProgress_run w1) as (o & E1 & Ho & Hread).
  rewrite (bind_run _ _ _ _ _ E1).
  destruct o as [p|].
  2:{ left. eexists. split; [reflexivity|]. split; [reflexivity|].
      destruct (outage w (ReqGetItem USER_PROGRESS_KEY)) eqn:Hout; [by eauto|].
      right; left. symmetry. exact (Hread Hout). }
  specialize (Ho p eq_refl).
  rewrite (bind_run _ _ _ _ _ (calculateDayNumber_run _ _)).
  rewrite (bind_run _ _ _ _ _ (new_Date_run _)).
  rewrite (bind_run _ _ _ _ _ (PHOTOS_DIR_run _)).
  match goal with |- context [FileSystem.copyAsync ?f ?t] => set (path := t) end.
  destruct (copyAsync_run photoUri path (tick (tick w1)))
    as [(n & Hn & Hserved & E2)|([Hnone|Hrej] & E2)];
    [ rewrite (bind_run _ _ _ _ _ E2)
    | rewrite (bind_abort _ _ _ _ _ E2); left; by eauto 7 .. ].
  match goal with |- context [io_bind (FileSystem.getInfoAsync path) ?k ?v] =>
    destruct (getInfoAsync_run path v) as ([info|e] & E3 & C3) end;
    [ rewrite (bind_run _ _ _ _ _ E3)
    | rewrite (bind_abort _ _ _ _ _ E3); left;
      specialize (C3 e eq_refl); by eauto 7 ].
  rewrite (bind_run _ _ _ _ _ (new_Date_run _)).
  rewrite (bind_run _ _ _ _ _ (new_Date_run _)).
  match goal with |- context [io_bind (updateStreak ?q) ?k ?v] =>
    destruct (updateStreak_run q v) as (p' & E4 & _) end.
  rewrite (bind_run _ _ _ _ _ E4).
  match goal with |- context [io_bind (AsyncStorage.setItem ?key ?val) ?k ?v] =>
    destruct (setItem_run key val v) as [(_ & E5)|(Hrej & E5)] end;
    [ rewrite (bind_run _ _ _ _ _ E5)
    | rewrite (bind_abort _ _ _ _ _ E5); left; by eauto 7 ].
  right. unfold io_ret.
  match type of E4 with updateStreak _ ?v = _ => eexists _, p, p', v end.
  split; [reflexivity|]. split; [exact Ho|]. split; [exists n; exact Hn|].
  split; [exact Hserved|].
  split; [reflexivity|]. split; [reflexivity|].
  split; [exact (f_equal fst E4) | reflexivity].
Qed.

(** A successful [initializeUser] stores the empty progress record,
    started at the first reading of the clock. *)
Lemma initializeUser_run userProfile w :
  fst (initializeUser userProfile w) = Returned tt ->
  stored_progress (snd (initializeUser userProfile w)) =
  Some {| startDate := clock w (readings w);
          currentStreak := 0; longestStreak := 0; totalPhotos := 0;
          lastPhotoDate := None; photos := [] |}.
Proof.
  unfold initializeUser. rewrite try_catch_rethrow.
  destruct (setItem_run USER_PROFILE_KEY (DocProfile userProfile) w)
    as [(_ & E0)|(_ & E0)];
    [ rewrite (bind_run _ _ _ _ _ E0) | by rewrite (bind_abort _ _ _ _ _ E0) ].
  rewrite (bind_run _ _ _ _ _ (new_Date_run _)).
  match goal with |- context [io_bind (AsyncStorage.setItem ?key ?val) ?k ?v] =>
    destruct (setItem_run key val v) as [(_ & E1)|(_ & E1)] end;
    [ rewrite (bind_run _ _ _ _ _ E1) | by rewrite (bind_abort _ _ _ _ _ E1) ].
  rewrite (bind_run _ _ _ _ _ (new_Date_run _)).
  match goal with |- context [AsyncStorage.setItem ?key ?val ?v] =>
    destruct (setItem_run key val v) as [(_ & E2)|(_ & E2)] end;
    rewrite E2; [|done].
  intros _. unfold stored_progress. simpl.
  rewrite lookup_insert_ne by done. by rewrite lookup_insert_eq.
Qed.

Lemma stored_progress_written w w' p :
  asyncStorage w' = <[USER_PROGRESS_KEY := DocProgress p]> (asyncStorage w) ->
  stored_progress w' = Some p.
Proof. unfold stored_progress. intros ->. by rewrite lookup_insert_eq. Qed.

Lemma stored_progress_kept w w' :
  asyncStorage w' = asyncStorage w -> stored_progress w' = stored_progress w.
Proof. unfold stored_progress. by intros ->. Qed.

(** What a returned [savePhoto] leaves in the store. *)
Lemma savePhoto_returned photoUri a w photo :
  fst (savePhoto photoUri a w) = Returned photo ->
  exists p p',
    stored_progress w = Some p /\
    stored_progress (snd (savePhoto photoUri a w)) = Some p' /\
    startDate p' = startDate p /\
    photos p' = (photos p ++ [photo])%list /\
    totalPhotos p' = Z.of_nat (length (photos p ++ [photo])%list) /\
    lastPhotoDate p' = Some (clock w (3 + readings w)%nat) /\
    currentStreak p' <= longestStreak p' /\
    longestStreak p <= longestStreak p' /\
    (0 <= clock w (4 + readings w)%nat - clock w (3 + readings w)%nat < MS_PER_DAY ->
     currentStreak p' = currentStreak p).
Proof.
  intros Hret.
  destruct (savePhoto_run photoUri a w)
    as [(e & He & _)|(photo' & p & p' & w4 & Hph & Hp & _ & _ & Hc & Hr & Hu & Hs)];
    [congruence|].
  assert (photo' = photo) as -> by congruence.
  exists p, p'. split; [done|].
  split; [by eapply stored_progress_written|].
  match type of Hu with fst (updateStreak ?q _) = _ =>
    destruct (updateStreak_run q w4) as (p'' & E & H1 & H2 & H3 & H4 & H5 & H6) end.
  assert (p'' = p') as -> by (rewrite E in Hu; simpl in Hu; congruence).
  repeat split; try done.
  intros Hnow.
  pose proof (fun last H1 H2 => updateStreak_same_day _ w4 last p' H1 H2 Hu)
    as Hsame.
  simpl in Hsame. apply (Hsame _ eq_refl). by rewrite Hc, Hr.
Qed.

(** The record that a returned [savePhoto] hands back, by the readings
    of the clock, and what the call leaves in the file system: the copy
    of the shot, under the path of the record. *)
Lemma savePhoto_record uri a w photo :
  fst (savePhoto uri a w) = Returned photo ->
  exists p n,
    stored_progress w = Some p /\
    files w !! uri = Some n /\
    dayNumber photo =
      Math_ceil_div (Z.abs (clock w (readings w) - startDate p)) MS_PER_DAY /\
    id photo =
      pretty (dayNumber photo) ++ "_" ++ angle_text a ++ "_" ++
      pretty (clock w (1 + readings w)%nat) /\
    angle photo = a /\
    photoUri photo = uri /\
    localPath photo =
      (documentDirectory w ++ "progress_photos/") ++ id photo ++ ".jpg" /\
    timestamp photo = clock w (2 + readings w)%nat /\
    files (snd (savePhoto uri a w)) = <[localPath photo := n]> (files w) /\
    (localPath photo ∉ directories (snd (savePhoto uri a w)) ->
     fileSize (metadata photo) = n) /\
    clock (snd (savePhoto uri a w)) = clock w /\
    readings (snd (savePhoto uri a w)) = (5 + readings w)%nat /\
    outage (snd (savePhoto uri a w)) = outage w /\
    documentDirectory (snd (savePhoto uri a w)) = documentDirectory w.
Proof.
  unfold savePhoto. rewrite try_catch_rethrow.
  destruct (initialize_run w) as (r0 & d & E0 & _).
  destruct r0 as [[]|e];
    [ rewrite (bind_run _ _ _ _ _ E0) | by rewrite (bind_abort _ _ _ _ _ E0) ].
  set (w1 := with_files d (files w) w).
  destruct (getUserProgress_run w1) as (o & E1 & Ho & _).
  rewrite (bind_run _ _ _ _ _ E1).
  destruct o as [p|]; [|done].
  specialize (Ho p eq_refl).
  rewrite (bind_run _ _ _ _ _ (calculateDayNumber_run _ _)).
  rewrite (bind_run _ _ _ _ _ (new_Date_run _)).
  rewrite (bind_run _ _ _ _ _ (PHOTOS_DIR_run _)).
  match goal with |- context [FileSystem.copyAsync ?f ?t] => set (path := t) end.
  destruct (copyAsync_run uri path (tick (tick w1)))
    as [(n & Hn & _ & E2)|(_ & E2)];
    [ rewrite (bind_run _ _ _ _ _ E2) | by rewrite (bind_abort _ _ _ _ _ E2) ].
  match goal with |- context [io_bind (FileSystem.getInfoAsync path) ?k ?v] =>
    set (w2 := v);
    destruct (FileSystem.getInfoAsync path w2) as [[info|e] w2'] eqn:E3 end.
  2:{ by rewrite (bind_abort _ _ _ _ _ E3). }
  assert (w2' = w2 /\ (path ∉ directories w2 -> FileSystem.size info = Some n))
    as [-> Hsize].
  { unfold FileSystem.getInfoAsync, request in E3.
    destruct (outage w2 _); [done|].
    injection E3 as <- <-. split; [done|]. intros Hdir.
    rewrite decide_False by done.
    subst w2. simpl. by rewrite lookup_insert_eq. }
  rewrite (bind_run _ _ _ _ _ E3).
  rewrite (bind_run _ _ _ _ _ (new_Date_run _)).
  rewrite (bind_run _ _ _ _ _ (new_Date_run _)).
  match goal with |- context [io_bind (updateStreak ?q) ?k ?v] =>
    destruct (updateStreak_run q v) as (p' & E4 & _) end.
  rewrite (bind_run _ _ _ _ _ E4).
  match goal with |- context [io_bind (AsyncStorage.setItem ?key ?val) ?k ?v] =>
    destruct (setItem_run key val v) as [(_ & E5)|(_ & E5)] end;
    [ rewrite (bind_run _ _ _ _ _ E5) | by rewrite (bind_abort _ _ _ _ _ E5) ].
  unfold io_ret. simpl. intros [= <-]. simpl.
  exists p, n. split; [exact Ho|]. split; [exact Hn|].
  repeat split.
  intros Hdir. by rewrite (Hsize Hdir).
Qed.

(** A throwing [savePhoto] leaves the store as it was. *)
Lemma savePhoto_thrown photoUri a w e :
  fst (savePhoto photoUri a w) = Thrown e ->
  asyncStorage (snd (savePhoto photoUri a w)) = asyncStorage w.
Proof.
  intros Hthrown.
  destruct (savePhoto_run photoUri a w)
    as [(e' & _ & Hs & _)|(photo & p & p' & w4 & Hph & _)]; [done | congruence].
Qed.

(** When every request is served, a progress record is stored and the
    shot is there, [savePhoto] returns. *)
Lemma savePhoto_served photoUri a w :
  (forall q, outage w q = false) ->
  is_Some (stored_progress w) ->
  is_Some (files w !! photoUri) ->
  exists photo, fst (savePhoto photoUri a w) = Returned photo.
Proof.
  intros Hserved [p Hp] [n Hn].
  destruct (savePhoto_run photoUri a w)
    as [(e & _ & _ & [[q Hq]|[Hnone|Hnone]])|(photo & _ & _ & _ & Hph & _)];
    [ by rewrite Hserved in Hq | congruence | congruence | by eauto ].
Qed.

(** When the copy is the one request that fails, what [savePhoto] throws
    is the rejection of the copy. *)
Lemma savePhoto_copy_rejection photoUri a w :
  files w !! photoUri = None \/
  (forall destination, outage w (ReqCopy photoUri destination) = true) ->
  (forall q, outage w q = true -> exists destination, q = ReqCopy photoUri destination) ->
  is_Some (stored_progress w) ->
  exists destination,
    fst (savePhoto photoUri a w) = Thrown (Rejected (ReqCopy photoUri destination)).
Proof.
  intros Hcopy Honly [p Hp].
  unfold savePhoto. rewrite try_catch_rethrow.
  destruct (initialize_run w) as (r0 & d & E0 & C0).
  destruct r0 as [[]|e].
  2:{ destruct (C0 e eq_refl) as (q & Hq & Hne).
      destruct (Honly q Hq) as [t ->]. by destruct (Hne photoUri t). }
  rewrite (bind_run _ _ _ _ _ E0).
  set (w1 := with_files d (files w) w).
  destruct (getUserProgress_run w1) as (o & E1 & _ & Hread).
  rewrite (bind_run _ _ _ _ _ E1).
  assert (o = Some p) as ->.
  { rewrite <- Hp. apply Hread.
    destruct (outage w1 (ReqGetItem USER_PROGRESS_KEY)) eqn:Hout; [|done].
    by destruct (Honly _ Hout). }
  rewrite (bind_run _ _ _ _ _ (calculateDayNumber_run _ _)).
  rewrite (bind_run _ _ _ _ _ (new_Date_run _)).
  rewrite (bind_run _ _ _ _ _ (PHOTOS_DIR_run _)).
  match goal with |- context [FileSystem.copyAsync ?f ?t] => set (path := t) end.
  exists path.
  destruct (copyAsync_run photoUri path (tick (tick w1)))
    as [(n & Hn & Hserved & _)|(_ & E2)].
  - destruct Hcopy as [Hnone|Hrej]; [simpl in Hn; congruence|].
    simpl in Hserved. by rewrite Hrej in Hserved.
  - by rewrite (bind_abort _ _ _ _ _ E2).
Qed.

(** Every reachable progress record has [currentStreak <= longestStreak]
    and counts its photos in [totalPhotos]. *)
Lemma reachable_invariants p :
  reachable p ->
  currentStreak p <= longestStreak p /\
  totalPhotos p = Z.of_nat (length (photos p)).
Proof.
  induction 1 as [userProfile w p Hok Hp | photoUri a w p p' Hreach IH Hp Hp'].
  - rewrite (initializeUser_run _ _ Hok) in Hp. by injection Hp as <-.
  - destruct (fst (savePhoto photoUri a w)) as [photo|e] eqn:Hrun.
    + destruct (savePhoto_returned _ _ _ _ Hrun)
        as (q & q' & Hq & Hq' & _ & Hphotos & Htotal & _ & Hle & _).
      assert (q' = p') as -> by congruence.
      split; [done|]. by rewrite Htotal, Hphotos.
    + rewrite (stored_progress_kept _ _ (savePhoto_thrown _ _ _ _ Hrun)) in Hp'.
      assert (p' = p) as -> by congruence. done.
Qed.


(** ** The sample run *)

Lemma onboarded_record : stored_progress onboarded = Some fresh_record.
Proof. vm_compute. reflexivity. Qed.

Lemma after_first_photo_record :
  stored_progress after_first_photo = Some first_record.
Proof. vm_compute. reflexivity. Qed.

Lemma fresh_record_reachable : reachable fresh_record.
Proof.
  apply (reach_init sample_profile (device (clock_from noon) ∅));
    vm_compute; reflexivity.
Defined.

Lemma first_record_reachable : reachable first_record.
Proof.
  apply (reach_save camera_file front
           (later (clock_from (noon + 60000)) onboarded) fresh_record).
  - exact fresh_record_reachable.
  - vm_compute. reflexivity.
  - vm_compute. reflexivity.
Defined.

(** ** The claims *)

(** C1.  A capture on the day after the stored [lastPhotoDate] should
    add 1 to [currentStreak].  Here the first photo was taken on
    2023-11-14 at 12:01 UTC and the next capture is made 24 hours after
    it, one whole day later by the measure of [updateStreak] too:
    [savePhoto] returns, and the stored [currentStreak] is what it was,
    not one more. *)
Theorem savePhoto_next_day_streak_not_incremented :
  let w := later (clock_from (noon + 60000 + MS_PER_DAY)) after_first_photo in
  exists last photo p',
    stored_progress w = Some first_record /\
    lastPhotoDate first_record = Some last /\
    (clock w 4 - last) / MS_PER_DAY = 1 /\
    fst (savePhoto camera_file front w) = Returned photo /\
    timestamp photo = noon + 60002 + MS_PER_DAY /\
    stored_progress (snd (savePhoto camera_file front w)) = Some p' /\
    currentStreak p' = currentStreak first_record /\
    currentStreak p' <> currentStreak first_record + 1.
Proof.
  intros w. subst w. eexists _, _, _.
  repeat (split; [vm_compute; reflexivity|]).
  vm_compute. discriminate.
Qed.

(** C2.  The first photo ever saved should leave [currentStreak = 1].
    Here [initializeUser] has just written the empty record (no
    [lastPhotoDate], no photos): the first [savePhoto] returns, and the
    stored [currentStreak] is 0. *)
Theorem savePhoto_first_photo_streak_stays_zero :
  let w := later (clock_from (noon + 60000)) onboarded in
  exists p photo p',
    stored_progress w = Some p /\
    totalPhotos p = 0 /\ lastPhotoDate p = None /\
    fst (savePhoto camera_file front w) = Returned photo /\
    stored_progress (snd (savePhoto camera_file front w)) = Some p' /\
    totalPhotos p' = 1 /\
    currentStreak p' = 0.
Proof.
  intros w. subst w. eexists _, _, _.
  repeat (split; [vm_compute; reflexivity|]).
  vm_compute. reflexivity.
Qed.

(** C3, as stated, fails.  The first photo is dated 12:01:00 and the
    clock of the next capture stands at 12:00:30 of the same day:
    [savePhoto] returns the new record, counts it, and moves
    [lastPhotoDate] back to the capture. *)
Lemma backdated_capture_not_rejected :
  let w := later (clock_from (noon + 30000)) after_first_photo in
  exists photo p',
    stored_progress w = Some first_record /\
    lastPhotoDate first_record = Some (noon + 60003) /\
    fst (savePhoto camera_file back w) = Returned photo /\
    timestamp photo = noon + 30002 /\
    stored_progress (snd (savePhoto camera_file back w)) = Some p' /\
    totalPhotos p' = 2 /\
    lastPhotoDate p' = Some (noon + 30003) /\
    stored_progress (snd (savePhoto camera_file back w)) <> stored_progress w.
Proof.
  intros w. subst w. eexists _, _.
  repeat (split; [vm_compute; reflexivity|]).
  vm_compute. discriminate.
Qed.

(** C3, amended.  A capture whose instant is earlier than the stored
    [lastPhotoDate] is not rejected.  When every request is served and
    the shot is there, [savePhoto] returns the new record, appends it to
    [photos], counts it in [totalPhotos] and sets [lastPhotoDate] to the
    capture instant.  In [updateStreak], a clock earlier than the
    [lastPhotoDate] of the record takes the streak-broken branch:
    [currentStreak] becomes 1. *)
Theorem backdated_capture_is_saved photoUri a w p last :
  stored_progress w = Some p ->
  lastPhotoDate p = Some last ->
  (forall q, outage w q = false) ->
  is_Some (files w !! photoUri) ->
  clock w (3 + readings w)%nat < last ->
  (exists photo p',
     fst (savePhoto photoUri a w) = Returned photo /\
     stored_progress (snd (savePhoto photoUri a w)) = Some p' /\
     photos p' = (photos p ++ [photo])%list /\
     totalPhotos p' = Z.of_nat (length (photos p)) + 1 /\
     lastPhotoDate p' = Some (clock w (3 + readings w)%nat)) /\
  (forall w2, clock w2 (readings w2) < last ->
     exists p2, fst (updateStreak p w2) = Returned p2 /\ currentStreak p2 = 1).
Proof.
  intros Hp Hlast Hserved Hfile Hearlier. split.
  - destruct (savePhoto_served photoUri a w Hserved) as [photo Hret];
      [by rewrite Hp | done |].
    destruct (savePhoto_returned _ _ _ _ Hret)
      as (q & p' & Hq & Hp' & _ & Hphotos & Htotal & Hdate & _).
    assert (q = p) as -> by congruence.
    exists photo, p'. repeat split; try done.
    rewrite Htotal, length_app. simpl. lia.
  - intros w2 Hnow.
    destruct (updateStreak_run p w2) as (p2 & E & _).
    exists p2. rewrite E. split; [done|].
    rewrite (updateStreak_currentStreak p w2 p2) by by rewrite E.
    rewrite Hlast. simpl.
    assert ((clock w2 (readings w2) - last) / MS_PER_DAY < 0)
      by (apply Z.div_lt_upper_bound; [done | lia]).
    repeat case_decide; lia.
Qed.

Lemma backdated_capture_is_saved_witness :
  let w := later (clock_from (noon + 30000)) after_first_photo in
  (exists photo p',
     fst (savePhoto camera_file back w) = Returned photo /\
     stored_progress (snd (savePhoto camera_file back w)) = Some p' /\
     photos p' = (photos first_record ++ [photo])%list /\
     totalPhotos p' = Z.of_nat (length (photos first_record)) + 1 /\
     lastPhotoDate p' = Some (clock w (3 + readings w)%nat)) /\
  (forall w2, clock w2 (readings w2) < noon + 60003 ->
     exists p2, fst (updateStreak first_record w2) = Returned p2 /\
                currentStreak p2 = 1).
Proof.
  intros w.
  apply (backdated_capture_is_saved camera_file back w first_record (noon + 60003)).
  - vm_compute. reflexivity.
  - reflexivity.
  - intros q. vm_compute. reflexivity.
  - exists 204800. vm_compute. reflexivity.
  - vm_compute. reflexivity.
Defined.

(** C4, as stated, fails.  The clock stands still at 2023-11-14 12:00
    UTC while the user is initialised and takes the first photo:
    [startDate] and the capture are the same instant, and the saved
    record has [dayNumber = 0], where the stated rule gives 1. *)
Lemma saved_photo_with_dayNumber_zero :
  let w := snd (initializeUser sample_profile (device (fun _ => noon) ∅)) in
  exists p photo,
    stored_progress w = Some p /\
    startDate p = noon /\
    fst (savePhoto camera_file front w) = Returned photo /\
    timestamp photo = noon /\
    dayNumber photo = 0 /\
    spec_dayNumber (timestamp photo) (startDate p) = 1.
Proof.
  intros w. subst w. eexists _, _.
  repeat (split; [vm_compute; reflexivity|]).
  vm_compute. reflexivity.
Qed.

Lemma Math_ceil_div_bounds a b :
  0 < b -> (Math_ceil_div a b - 1) * b < a <= Math_ceil_div a b * b.
Proof.
  intros Hb. unfold Math_ceil_div.
  pose proof (Z.div_mod (- a) b ltac:(lia)).
  pose proof (Z.mod_pos_bound (- a) b Hb). nia.
Qed.

(** C4, amended.  For every saved photo the day number is worked out
    from the first reading of the clock in [savePhoto], taken before
    the shot is copied; the [timestamp] of the record is a later
    reading.  With [now] that first reading, and the two instants at
    most [2 ^ 53] ms apart (up to there the doubles of the code carry
    the integers of this file), [dayNumber] is the least number of whole
    days that cover the distance, in either direction, between [now]
    and [startDate]: there is no floor of 1.  It is at least 1 whenever
    [now] is not exactly [startDate], where it is 0, and it is the
    number of the stated rule at [now] whenever [now] is past
    [startDate].  Measured on the [timestamp] instead, for a clock that
    does not go back and a call shorter than a day, the stated rule
    gives the same number or one more. *)
Theorem saved_photo_dayNumber uri a w photo p :
  fst (savePhoto uri a w) = Returned photo ->
  stored_progress w = Some p ->
  Z.abs (clock w (readings w) - startDate p) <= 2 ^ 53 ->
  exists p',
    stored_progress (snd (savePhoto uri a w)) = Some p' /\
    startDate p' = startDate p /\
    photos p' = (photos p ++ [photo])%list /\
    timestamp photo = clock w (2 + readings w)%nat /\
    (dayNumber photo - 1) * MS_PER_DAY
      < Z.abs (clock w (readings w) - startDate p)
      <= dayNumber photo * MS_PER_DAY /\
    (clock w (readings w) <> startDate p -> 1 <= dayNumber photo) /\
    (clock w (readings w) = startDate p -> dayNumber photo = 0) /\
    (startDate p < clock w (readings w) ->
     dayNumber photo = spec_dayNumber (clock w (readings w)) (startDate p)) /\
    (startDate p < clock w (readings w) <= timestamp photo ->
     timestamp photo - clock w (readings w) < MS_PER_DAY ->
     dayNumber photo <= spec_dayNumber (timestamp photo) (startDate p)
       <= dayNumber photo + 1).
Proof.
  intros Hret Hp _.
  destruct (savePhoto_returned _ _ _ _ Hret)
    as (q & p' & Hq & Hp' & Hstart & Hphotos & _).
  assert (q = p) as -> by congruence.
  destruct (savePhoto_record _ _ _ _ Hret)
    as (q & n & Hq' & _ & Hday & _ & _ & _ & _ & Hstamp & _).
  assert (q = p) as -> by congruence.
  exists p'. split; [done|]. split; [done|]. split; [done|]. split; [done|].
  set (t := clock w (readings w)) in *.
  pose proof (Math_ceil_div_bounds (Z.abs (t - startDate p)) MS_PER_DAY eq_refl) as Hb.
  rewrite <- Hday in Hb.
  split; [exact Hb|]. split; [|split; [|split]].
  - intros Hne. unfold MS_PER_DAY in *. lia.
  - intros Heq. rewrite Hday, Heq, Z.sub_diag. reflexivity.
  - intros Hlt. unfold spec_dayNumber.
    pose proof (Math_ceil_div_bounds (t - startDate p) MS_PER_DAY eq_refl) as Hc.
    rewrite Z.abs_eq in Hb by lia. unfold MS_PER_DAY in *. lia.
  - intros [Hlt Hle] Hshort. unfold spec_dayNumber.
    pose proof (Math_ceil_div_bounds (timestamp photo - startDate p) MS_PER_DAY eq_refl) as Hc.
    rewrite Z.abs_eq in Hb by lia. unfold MS_PER_DAY in *. lia.
Qed.

Lemma saved_photo_dayNumber_witness :
  let w := later (clock_from (noon + 60000)) onboarded in
  fst (savePhoto camera_file front w) = Returned first_photo /\
  exists p',
    stored_progress (snd (savePhoto camera_file front w)) = Some p' /\
    photos p' = [first_photo] /\
    timestamp first_photo = noon + 60002 /\
    1 <= dayNumber first_photo /\
    dayNumber first_photo = spec_dayNumber (noon + 60000) noon /\
    dayNumber first_photo <= spec_dayNumber (timestamp first_photo) noon
      <= dayNumber first_photo + 1.
Proof.
  intros w.
  assert (fst (savePhoto camera_file front w) = Returned first_photo) as Hret
    by (vm_compute; reflexivity).
  assert (stored_progress w = Some fresh_record) as Hp
    by (vm_compute; reflexivity).
  assert (Z.abs (clock w (readings w) - startDate fresh_record) <= 2 ^ 53) as Hrange
    by (vm_compute; discriminate).
  split; [exact Hret|].
  destruct (saved_photo_dayNumber camera_file front w first_photo fresh_record
              Hret Hp Hrange)
    as (p' & Hp' & _ & Hphotos & Hstamp & _ & Hpos & _ & Hrule & Hlate).
  exists p'. split; [exact Hp'|]. split; [exact Hphotos|].
  split; [reflexivity|].
  assert (clock w (readings w) <> startDate fresh_record) as Hne
    by (vm_compute; discriminate).
  assert (startDate fresh_record < clock w (readings w)) as Hlt
    by (vm_compute; reflexivity).
  assert (startDate fresh_record < clock w (readings w) <= timestamp first_photo)
    as Hbetween by (vm_compute; split; [reflexivity | discriminate]).
  assert (timestamp first_photo - clock w (readings w) < MS_PER_DAY) as Hshort
    by (vm_compute; reflexivity).
  split; [exact (Hpos Hne)|]. split; [exact (Hrule Hlt)|].
  exact (Hlate Hbetween Hshort).
Defined.

(** C5.  When the copy of the shot into the app's directory fails -
    there is nothing at [photoUri], or the platform rejects the copy, or
    the rejection of the copy is what [savePhoto] throws - the call
    throws and the store is what it was before the call: so is the
    progress record in it.  When nothing else fails, the error thrown is
    the rejection of the copy. *)
Theorem savePhoto_copy_failure_atomic photoUri a w :
  files w !! photoUri = None \/
  (forall destination, outage w (ReqCopy photoUri destination) = true) \/
  (exists destination,
     fst (savePhoto photoUri a w) = Thrown (Rejected (ReqCopy photoUri destination))) ->
  (exists e,
     fst (savePhoto photoUri a w) = Thrown e /\
     asyncStorage (snd (savePhoto photoUri a w)) = asyncStorage w /\
     stored_progress (snd (savePhoto photoUri a w)) = stored_progress w) /\
  ((forall q, outage w q = true -> exists destination, q = ReqCopy photoUri destination) ->
   is_Some (stored_progress w) ->
   exists destination,
     fst (savePhoto photoUri a w) = Thrown (Rejected (ReqCopy photoUri destination))).
Proof.
  intros Hcopy. split.
  - destruct (savePhoto_run photoUri a w)
      as [(e & He & Hs & _)|(photo & p & p' & w4 & Hret & _ & [n Hn] & Hserved & _)].
    + exists e. split; [done|]. split; [done|]. by apply stored_progress_kept.
    + destruct Hcopy as [Hnone|[Hrej|[t Hthrown]]];
        [congruence | by rewrite Hrej in Hserved | congruence].
  - intros Honly Hstored.
    destruct Hcopy as [Hnone|[Hrej|Hthrown]]; [| |done].
    + apply savePhoto_copy_rejection; by eauto.
    + apply savePhoto_copy_rejection; by eauto.
Qed.

Lemma savePhoto_copy_failure_atomic_witness :
  let w := later (clock_from (noon + 60000 + MS_PER_DAY)) after_first_photo in
  let lost := "file:///cache/Camera/lost.jpg" in
  files w !! lost = None /\
  (exists e,
     fst (savePhoto lost front w) = Thrown e /\
     asyncStorage (snd (savePhoto lost front w)) = asyncStorage w /\
     stored_progress (snd (savePhoto lost front w)) = stored_progress w) /\
  (exists destination,
     fst (savePhoto lost front w) = Thrown (Rejected (ReqCopy lost destination))).
Proof.
  intros w lost.
  assert (files w !! lost = None) as Hnone by (vm_compute; reflexivity).
  split; [exact Hnone|].
  destruct (savePhoto_copy_failure_atomic lost front w (or_introl Hnone))
    as [Hatomic Herror].
  split; [exact Hatomic|].
  apply Herror.
  - intros q Hq. vm_compute in Hq. discriminate.
  - exists first_record. vm_compute. reflexivity.
Defined.

(** C8.  Every reachable progress record - the one [initializeUser]
    writes, and any record left by [savePhoto] on a reachable one - has
    [longestStreak >= currentStreak]; and whatever [savePhoto] does on
    it, returning or throwing, the record found afterwards has a
    [longestStreak] that is not smaller. *)
Theorem longestStreak_invariant p :
  reachable p ->
  currentStreak p <= longestStreak p /\
  forall photoUri a w,
    stored_progress w = Some p ->
    exists p',
      stored_progress (snd (savePhoto photoUri a w)) = Some p' /\
      currentStreak p' <= longestStreak p' /\
      longestStreak p <= longestStreak p'.
Proof.
  intros Hreach.
  destruct (reachable_invariants p Hreach) as [Hle _].
  split; [exact Hle|].
  intros photoUri a w Hp.
  destruct (fst (savePhoto photoUri a w)) as [photo|e] eqn:Hrun.
  - destruct (savePhoto_returned _ _ _ _ Hrun)
      as (q & p' & Hq & Hp' & _ & _ & _ & _ & Hle' & Hmono & _).
    assert (q = p) as -> by congruence. by exists p'.
  - exists p. split; [|lia].
    by rewrite (stored_progress_kept _ _ (savePhoto_thrown _ _ _ _ Hrun)).
Qed.

Lemma longestStreak_invariant_witness :
  let w := later (clock_from (noon + 60000 + MS_PER_DAY)) after_first_photo in
  currentStreak first_record <= longestStreak first_record /\
  exists p',
    stored_progress (snd (savePhoto camera_file side w)) = Some p' /\
    currentStreak p' <= longestStreak p' /\
    longestStreak first_record <= longestStreak p'.
Proof.
  intros w.
  destruct (longestStreak_invariant first_record first_record_reachable)
    as [Hle Hsave].
  split; [exact Hle|].
  apply (Hsave camera_file side w). vm_compute. reflexivity.
Defined.

(** C9.  Every reachable progress record has [totalPhotos] equal to the
    number of its photo records, and every [savePhoto] that returns
    appends exactly one record - the one it returns - and adds exactly 1
    to [totalPhotos], whatever the day of the capture. *)
Theorem totalPhotos_counts_photos p :
  reachable p ->
  totalPhotos p = Z.of_nat (length (photos p)) /\
  forall photoUri a w photo,
    stored_progress w = Some p ->
    fst (savePhoto photoUri a w) = Returned photo ->
    exists p',
      stored_progress (snd (savePhoto photoUri a w)) = Some p' /\
      photos p' = (photos p ++ [photo])%list /\
      totalPhotos p' = Z.of_nat (length (photos p')) /\
      totalPhotos p' = totalPhotos p + 1.
Proof.
  intros Hreach.
  destruct (reachable_invariants p Hreach) as [_ Htotal].
  split; [exact Htotal|].
  intros photoUri a w photo Hp Hrun.
  destruct (savePhoto_returned _ _ _ _ Hrun)
    as (q & p' & Hq & Hp' & _ & Hphotos & Htotal' & _).
  assert (q = p) as -> by congruence.
  exists p'. split; [done|]. split; [done|].
  rewrite Hphotos, Htotal', Htotal, length_app. simpl. lia.
Qed.

(** A second photo an hour after the first, on the same day: it is
    counted as well. *)
Lemma totalPhotos_counts_photos_witness :
  let w := later (clock_from (noon + 3660000)) after_first_photo in
  totalPhotos first_record = Z.of_nat (length (photos first_record)) /\
  exists photo p',
    fst (savePhoto camera_file side w) = Returned photo /\
    stored_progress (snd (savePhoto camera_file side w)) = Some p' /\
    photos p' = [first_photo; photo] /\
    totalPhotos p' = 2.
Proof.
  intros w.
  destruct (totalPhotos_counts_photos first_record first_record_reachable)
    as [Htotal Hsave].
  split; [exact Htotal|].
  destruct (fst (savePhoto camera_file side w)) as [photo|e] eqn:Hrun;
    [|vm_compute in Hrun; discriminate].
  destruct (Hsave camera_file side w photo) as (p' & Hp' & Hphotos & _ & Hcount);
    [vm_compute; reflexivity | exact Hrun |].
  exists photo, p'. split; [reflexivity|]. split; [exact Hp'|].
  split; [exact Hphotos | exact Hcount].
Defined.

(** C10.  [updateStreak] returns after one reading of the clock, and the
    record it leaves has the [startDate], [totalPhotos], [photos] and
    [lastPhotoDate] it was given: only [currentStreak] and
    [longestStreak] can differ. *)
Theorem updateStreak_frame p w :
  exists p',
    updateStreak p w = (Returned p', tick w) /\
    startDate p' = startDate p /\
    totalPhotos p' = totalPhotos p /\
    photos p' = photos p /\
    lastPhotoDate p' = lastPhotoDate p.
Proof.
  destruct (updateStreak_run p w) as (p' & E & H1 & H2 & H3 & H4 & _).
  by exists p'.
Qed.

(** ** NotificationService *)


(** The settings are read through a promise that is never awaited: the
    three methods that start with [const settings = this.getSettings()]
    throw a [TypeError] at their first use of [settings], catch it, and
    return with the world as it was. *)
Lemma scheduleDailyReminder_run w : scheduleDailyReminder w = (Returned tt, w).
Proof. reflexivity. Qed.

Lemma scheduleWeeklyProgress_run w : scheduleWeeklyProgress w = (Returned tt, w).
Proof. reflexivity. Qed.

Lemma sendStreakCelebration_run streakDays w :
  sendStreakCelebration streakDays w = (Returned tt, w).
Proof. reflexivity. Qed.

Lemma getSettings_default w :
  asyncStorage w !! (STORAGE_PREFIX ++ NOTIFICATION_KEYS.SETTINGS) = None ->
  getSettings w = (Returned DEFAULT_SETTINGS, w).
Proof.
  intros Hnone.
  unfold getSettings, try_catch, io_bind, storage.getString,
    AsyncStorage.getItem, request.
  destruct (outage w _); [done|]. by rewrite Hnone.
Qed.

(** With the settings record in hand, the body of
    [scheduleDailyReminder] schedules the default reminder for 18:00
    every day and keeps its identifier. *)
Example scheduleDailyReminder_body_default :
  let w := snd (scheduleDailyReminder_body (Plain DEFAULT_SETTINGS)
                  (device (clock_from noon) ∅)) in
  split_colon "18:00" = ["18"; "00"] /\
  map (fun entry => (fst entry, trigger (snd entry))) (scheduled w) =
    [("notification-0", Daily (Some 18) (Some 0))] /\
  asyncStorage w !! "notifications_daily_reminder_id" =
    Some (DocText "notification-0").
Proof. repeat split; vm_compute; reflexivity. Qed.

(** The copy of a celebration, by the four tiers of the streak. *)
Lemma celebration_copy_tiers streakDays :
  celebration_copy streakDays =
  if decide (streakDays <= 7) then
    ("🔥 " ++ pretty streakDays ++ " Day Streak!",
     "You're building momentum! Keep going strong!")
  else if decide (streakDays <= 30) then
    ("💪 " ++ pretty streakDays ++ " Day Streak!",
     "Amazing consistency! Your dedication is showing results!")
  else if decide (streakDays <= 90) then
    ("🚀 " ++ pretty streakDays ++ " Day Streak!",
     "Incredible! You're a progress tracking champion!")
  else
    ("👑 " ++ pretty streakDays ++ " Day Streak!",
     "LEGENDARY! You're an inspiration to everyone!").
Proof.
  unfold celebration_copy.
  repeat match goal with
    | |- context [(?a <=? ?b)%Z] => destruct (Z.leb_spec a b)
    end;
    repeat case_decide; first [reflexivity | lia].
Qed.

(** Had [settings] been the settings record itself, the body of
    [sendStreakCelebration] would do what is expected of it: on a device
    that serves the request, one notification is presented when
    celebrations are enabled and [streakDays] is one of the milestones,
    and none otherwise. *)
Lemma sendStreakCelebration_body_awaited settings streakDays w :
  outage w ReqSchedule = false ->
  let celebrated :=
    StreakCelebration.enabled (streakCelebration settings) &&
    bool_decide (streakDays ∈ StreakCelebration.milestones (streakCelebration settings)) in
  let w' := snd (sendStreakCelebration_body (Plain settings) streakDays w) in
  fst (sendStreakCelebration_body (Plain settings) streakDays w) = Returned tt /\
  scheduled w' = scheduled w /\
  presented w' =
    (presented w ++
     if celebrated then
       [ {| title := fst (celebration_copy streakDays);
            body := snd (celebration_copy streakDays);
            data_type := "streak_celebration";
            data_streakDays := Some streakDays;
            sound := true |} ]
     else [])%list.
Proof.
  intros Hserved.
  unfold sendStreakCelebration_body, member, read, io_bind, io_ret.
  destruct (StreakCelebration.enabled (streakCelebration settings)); simpl;
    [|by rewrite app_nil_r].
  destruct (bool_decide _); simpl; [|by rewrite app_nil_r].
  unfold Notifications.scheduleNotificationAsync, Notifications.record_call,
    io_bind, request. simpl. by rewrite Hserved.
Qed.

(** C6, as stated, fails.  Saving the notification settings - not a
    data reset - on a device that also holds a notification of another
    sender issues one call to the notification centre, a cancel-all, and
    the other sender's notification is gone. *)
Lemma settings_save_cancels_all :
  scheduled shared_device = [("other-1", foreign_reminder)] /\
  notifier_calls shared_device = [] /\
  fst (saveSettings DEFAULT_SETTINGS shared_device) = Returned tt /\
  notifier_calls (snd (saveSettings DEFAULT_SETTINGS shared_device)) =
    [CallCancelAll] /\
  scheduled (snd (saveSettings DEFAULT_SETTINGS shared_device)) = [].
Proof. repeat split; vm_compute; reflexivity. Qed.

(** C6, amended.  The first call that [scheduleAllNotifications] makes
    to the notification centre is a blanket cancel-all, in every world,
    with or without permission; [cancelAllNotifications] issues a
    cancel-all too, and [saveSettings] starts with one once the settings
    are written.  Cancelling by kind exists for the daily reminder:
    [cancelDailyReminder] issues at most one call, the cancellation of
    the stored daily-reminder identifier, and never a cancel-all.  The
    data reset, [clearAllData], issues no call at all. *)
Theorem cancellation_calls w :
  (exists rest,
     notifier_calls (snd (scheduleAllNotifications w)) =
       (notifier_calls w ++ CallCancelAll :: rest)%list) /\
  notifier_calls (snd (cancelAllNotifications w)) =
    (notifier_calls w ++ [CallCancelAll])%list /\
  (forall settings,
     exists rest,
       notifier_calls (snd (saveSettings settings w)) =
         (notifier_calls w ++
          if outage w (ReqSetItem (STORAGE_PREFIX ++ NOTIFICATION_KEYS.SETTINGS))
          then [] else CallCancelAll :: rest)%list) /\
  (exists issued_calls,
     notifier_calls (snd (cancelDailyReminder w)) =
       (notifier_calls w ++ issued_calls)%list /\
     (issued_calls = [] \/
      exists identifier,
        issued_calls = [CallCancel identifier] /\
        text_of <$> asyncStorage w !! (STORAGE_PREFIX ++ NOTIFICATION_KEYS.DAILY_REMINDER_ID)
          = Some identifier)) /\
  notifier_calls (snd (clearAllData w)) = notifier_calls w.
Proof.
  assert (forall v, notifier_calls (snd (scheduleAllNotifications v)) =
                    (notifier_calls v ++ [CallCancelAll])%list) as Hall.
  { intros v.
    unfold scheduleAllNotifications, try_catch, io_bind,
      Notifications.cancelAllScheduledNotificationsAsync, io_bind,
      Notifications.record_call, request, hasPermissions, try_catch,
      Notifications.getPermissionsAsync, request, io_ret.
    simpl. destruct (outage v ReqCancelAll); [done|]. simpl.
    destruct (outage v ReqGetPermissions); [done|]. simpl.
    by destruct (permission_granted v). }
  split; [exists []; apply Hall|]. split; [|split; [|split]].
  - unfold cancelAllNotifications, try_catch,
      Notifications.cancelAllScheduledNotificationsAsync, io_bind,
      Notifications.record_call, request.
    simpl. by destruct (outage w ReqCancelAll).
  - intros settings. exists [].
    unfold saveSettings, try_catch, io_bind, storage.set.
    destruct (setItem_run (STORAGE_PREFIX ++ NOTIFICATION_KEYS.SETTINGS)
                (DocSettings settings) w) as [(-> & E)|(-> & E)]; rewrite E.
    + destruct (scheduleAllNotifications _) as [[[]|e] w'] eqn:Hrun;
        pose proof (Hall (with_storage
          (<[STORAGE_PREFIX ++ NOTIFICATION_KEYS.SETTINGS := DocSettings settings]>
             (asyncStorage w)) w)) as Hcalls;
        rewrite Hrun in Hcalls; exact Hcalls.
    + simpl. by rewrite app_nil_r.
  - unfold cancelDailyReminder, try_catch, io_bind, storage.getString,
      storage.delete, AsyncStorage.getItem, AsyncStorage.removeItem,
      Notifications.cancelScheduledNotificationAsync, io_bind,
      Notifications.record_call, request, io_ret.
    destruct (outage w (ReqGetItem _));
      [exists []; split; [by rewrite app_nil_r | by left] |].
    destruct (asyncStorage w !! _) as [d|]; simpl;
      [|exists []; split; [by rewrite app_nil_r | by left]].
    destruct (text_of d) as [|c identifier] eqn:Htext;
      [exists []; split; [by rewrite app_nil_r | by left] |].
    exists [CallCancel (String c identifier)]. split; [|right; by eauto].
    simpl. destruct (outage w (ReqCancel _)); [done|]. simpl.
    by destruct (outage w (ReqRemoveItem _)).
  - unfold clearAllData. rewrite try_catch_rethrow.
    unfold io_bind, AsyncStorage.multiRemove, PHOTOS_DIR,
      FileSystem.getInfoAsync, FileSystem.deleteAsync, request, io_ret.
    repeat (case_match; simplify_eq/=); done.
Qed.

(** C7.  [sendStreakCelebration(7)] should send one notification when
    celebrations are enabled and 7 is a milestone.  Here the settings
    are the defaults - celebrations enabled, 7 among the milestones -
    and the device serves every request: the call returns, and no
    notification was presented and no call reached the notification
    centre. *)
Theorem sendStreakCelebration_milestone_sends_nothing :
  let w := later (clock_from (noon + 7 * MS_PER_DAY)) after_first_photo in
  fst (getSettings w) = Returned DEFAULT_SETTINGS /\
  StreakCelebration.enabled (streakCelebration DEFAULT_SETTINGS) = true /\
  7 ∈ StreakCelebration.milestones (streakCelebration DEFAULT_SETTINGS) /\
  outage w ReqSchedule = false /\
  fst (sendStreakCelebration 7 w) = Returned tt /\
  presented (snd (sendStreakCelebration 7 w)) = [] /\
  notifier_calls (snd (sendStreakCelebration 7 w)) = [].
Proof.
  intros w. subst w.
  split; [vm_compute; reflexivity|].
  split; [reflexivity|].
  split; [simpl; set_solver|].
  repeat split; vm_compute; reflexivity.
Qed.

(** * Further properties *)

(** ** Reading the progress record *)

(** [getUserProgress], in one equation. *)
Lemma getUserProgress_exact w :
  getUserProgress w =
  (Returned (if outage w (ReqGetItem USER_PROGRESS_KEY) then None
             else stored_progress w), w).
Proof.
  unfold getUserProgress, try_catch, io_bind, AsyncStorage.getItem, request,
    stored_progress, io_ret, throw.
  destruct (outage w _); [done|].
  by destruct (asyncStorage w !! USER_PROGRESS_KEY) as [[?|?|?|?|[|??]]|].
Qed.

(** [getUserProgress] never throws and never changes the world.  It
    returns the stored progress record; when nothing is stored, when
    what is stored is no progress record, or when the read is rejected,
    it returns [null]. *)
Theorem getUserProgress_total w :
  snd (getUserProgress w) = w /\
  fst (getUserProgress w) =
    Returned (if outage w (ReqGetItem USER_PROGRESS_KEY) then None
              else stored_progress w) /\
  (stored_progress w = None -> fst (getUserProgress w) = Returned None).
Proof.
  rewrite getUserProgress_exact. split; [done|]. split; [done|].
  intros ->. by destruct (outage w _).
Qed.

Lemma getUserProgress_total_witness :
  fst (getUserProgress (device (clock_from noon) ∅)) = Returned None /\
  fst (getUserProgress after_first_photo) = Returned (Some first_record).
Proof.
  destruct (getUserProgress_total (device (clock_from noon) ∅)) as (_ & _ & Hnone).
  destruct (getUserProgress_total after_first_photo) as (_ & Hsome & _).
  split; [apply Hnone; vm_compute; reflexivity|].
  rewrite Hsome. vm_compute. reflexivity.
Defined.




(** ** What savePhoto keeps *)

Lemma updateStreak_longestStreak p w p' :
  fst (updateStreak p w) = Returned p' ->
  longestStreak p' = Z.max (longestStreak p) (currentStreak p').
Proof.
  unfold updateStreak, io_bind, new_Date, io_ret. simpl. intros [= <-].
  destruct (lastPhotoDate p) as [last|]; simpl; z_tests; simpl in *; lia.
Qed.

(** [updateStreak] measures the time since the [lastPhotoDate] of the
    record in whole periods of 24 hours, not in calendar days: less
    than 24 hours later the streak stays, from 24 to 48 hours later it
    grows by one, and in every other case - 48 hours or more, or a
    clock behind [lastPhotoDate] - it starts again at 1.  The longest
    streak is raised to the new streak when that is larger. *)
Theorem updateStreak_by_elapsed_time p w last :
  lastPhotoDate p = Some last ->
  exists p',
    updateStreak p w = (Returned p', tick w) /\
    (0 <= clock w (readings w) - last < MS_PER_DAY ->
     currentStreak p' = currentStreak p) /\
    (MS_PER_DAY <= clock w (readings w) - last < 2 * MS_PER_DAY ->
     currentStreak p' = currentStreak p + 1) /\
    (clock w (readings w) - last < 0 \/ 2 * MS_PER_DAY <= clock w (readings w) - last ->
     currentStreak p' = 1) /\
    longestStreak p' = Z.max (longestStreak p) (currentStreak p').
Proof.
  intros Hlast.
  destruct (updateStreak_run p w) as (p' & E & _).
  exists p'. split; [exact E|].
  assert (fst (updateStreak p w) = Returned p') as Hrun by by rewrite E.
  pose proof (updateStreak_currentStreak p w p' Hrun) as Hcur.
  rewrite Hlast in Hcur. simpl in Hcur.
  set (elapsed := clock w (readings w) - last) in *.
  pose proof (Z.div_mod elapsed MS_PER_DAY ltac:(done)) as Hdm.
  pose proof (Z.mod_pos_bound elapsed MS_PER_DAY eq_refl) as Hb.
  unfold MS_PER_DAY in *.
  repeat split;
    [intros H|intros H|intros H|by apply (updateStreak_longestStreak p w)];
    repeat case_decide; lia.
Qed.

(** The last photo is from 14 November, 12:01 UTC, and the clock stands
    at 11:01 of 15 November: another day of the calendar, less than 24
    hours later, and the streak stays. *)
Lemma updateStreak_by_elapsed_time_witness :
  let w := later (clock_from (noon + 60003 + 23 * 3600000)) after_first_photo in
  getDate utc (clock w 0) <> getDate utc (noon + 60003) /\
  exists p',
    updateStreak first_record w = (Returned p', tick w) /\
    currentStreak p' = currentStreak first_record.
Proof.
  intros w. split; [vm_compute; discriminate|].
  destruct (updateStreak_by_elapsed_time first_record w (noon + 60003) eq_refl)
    as (p' & Hrun & Hsame & _).
  exists p'. split; [exact Hrun|].
  assert (0 <= clock w (readings w) - (noon + 60003) < MS_PER_DAY) as Hnow
    by (vm_compute; split; [discriminate | reflexivity]).
  exact (Hsame Hnow).
Defined.



(** Over any run of [savePhoto] calls, returning or throwing, the
    progress record keeps its [startDate] and every photo record it
    had, in place and unchanged: new records are added at the end only.
    [longestStreak] never goes down. *)
Theorem savePhoto_append_only p p' :
  saves_to p p' ->
  startDate p' = startDate p /\
  (exists added, photos p' = (photos p ++ added)%list) /\
  longestStreak p <= longestStreak p'.
Proof.
  induction 1 as [p | uri a w p p' p'' Hsteps IH Hp' Hp''].
  - split; [done|]. split; [exists []; by rewrite app_nil_r | lia].
  - destruct IH as (Hstart & [added Hadded] & Hlong).
    destruct (fst (savePhoto uri a w)) as [photo|e] eqn:Hrun.
    + destruct (savePhoto_returned _ _ _ _ Hrun)
        as (q & q' & Hq & Hq' & Hstart' & Hphotos & _ & _ & _ & Hmono & _).
      assert (q = p') as -> by congruence.
      assert (q' = p'') as -> by congruence.
      split; [congruence|]. split; [|lia].
      exists (added ++ [photo])%list. by rewrite Hphotos, Hadded, app_assoc.
    + rewrite (stored_progress_kept _ _ (savePhoto_thrown _ _ _ _ Hrun)) in Hp''.
      assert (p'' = p') as -> by congruence.
      split; [done|]. split; [by exists added | done].
Qed.

Lemma savePhoto_append_only_witness :
  startDate first_record = startDate fresh_record /\
  (exists added, photos first_record = (photos fresh_record ++ added)%list) /\
  longestStreak fresh_record <= longestStreak first_record.
Proof.
  apply savePhoto_append_only.
  apply (saves_more camera_file front
           (later (clock_from (noon + 60000)) onboarded)
           fresh_record fresh_record first_record).
  - apply saves_none.
  - vm_compute. reflexivity.
  - vm_compute. reflexivity.
Defined.

(** ** The copy of the shot *)

Lemma prefix_app (s t : string) : String.prefix s (s ++ t) = true.
Proof.
  induction s as [|c s IH]; simpl; [by destruct t|].
  by destruct (ascii_dec c c).
Qed.

(** A returned [savePhoto] names the record after the day number, the
    angle and the second reading of the clock, and leaves a copy of the
    shot under that name in the photos directory: the copy has the size
    of the shot, the shot is still there, and no other file is touched.
    The size is what the record reports, unless a directory has the
    name of the copy. *)
Theorem savePhoto_copies_shot uri a w photo :
  fst (savePhoto uri a w) = Returned photo ->
  exists n,
    files w !! uri = Some n /\
    angle photo = a /\
    photoUri photo = uri /\
    id photo =
      pretty (dayNumber photo) ++ "_" ++ angle_text a ++ "_" ++
      pretty (clock w (1 + readings w)%nat) /\
    localPath photo =
      (documentDirectory w ++ "progress_photos/") ++ id photo ++ ".jpg" /\
    String.prefix (documentDirectory w ++ "progress_photos/") (localPath photo)
      = true /\
    files (snd (savePhoto uri a w)) !! localPath photo = Some n /\
    files (snd (savePhoto uri a w)) !! uri = Some n /\
    (forall path, path <> localPath photo ->
       files (snd (savePhoto uri a w)) !! path = files w !! path) /\
    (localPath photo ∉ directories (snd (savePhoto uri a w)) ->
     fileSize (metadata photo) = n).
Proof.
  intros Hret.
  destruct (savePhoto_record _ _ _ _ Hret)
    as (p & n & _ & Hn & _ & Hid & Hangle & Huri & Hpath & _ & Hfiles & Hsize & _).
  exists n. rewrite Hfiles.
  split; [done|]. split; [done|]. split; [done|]. split; [done|].
  split; [done|]. split; [rewrite Hpath; apply prefix_app|].
  split; [by rewrite lookup_insert_eq|]. split; [|split; [|done]].
  - destruct (decide (localPath photo = uri)) as [->|Hne];
      [by rewrite lookup_insert_eq | by rewrite lookup_insert_ne].
  - intros path Hne. by rewrite lookup_insert_ne.
Qed.

Lemma savePhoto_copies_shot_witness :
  let w := later (clock_from (noon + 60000)) onboarded in
  fst (savePhoto camera_file front w) = Returned first_photo /\
  files (snd (savePhoto camera_file front w))
    !! "file:///data/progress_photos/1_front_1699963260001.jpg" = Some 204800 /\
  files (snd (savePhoto camera_file front w)) !! camera_file = Some 204800 /\
  fileSize (metadata first_photo) = 204800.
Proof.
  intros w.
  assert (fst (savePhoto camera_file front w) = Returned first_photo) as Hret
    by (vm_compute; reflexivity).
  split; [exact Hret|].
  destruct (savePhoto_copies_shot camera_file front w first_photo Hret)
    as (n & Hn & _ & _ & _ & _ & _ & Hcopy & Hshot & _ & Hsize).
  assert (n = 204800) as -> by (vm_compute in Hn; congruence).
  split; [exact Hcopy|]. split; [exact Hshot|].
  apply Hsize. vm_compute. set_solver.
Defined.

(** ** Setting up and resetting *)



(** [clearAllData], request by request. *)
Lemma clearAllData_run w :
  clearAllData w =
  let dir := documentDirectory w ++ "progress_photos/" in
  let w1 :=
    with_storage
      (delete USER_PROFILE_KEY
         (delete USER_PROGRESS_KEY (delete APP_STATE_KEY (asyncStorage w)))) w in
  if outage w ReqMultiRemove then (Thrown (Rejected ReqMultiRemove), w)
  else if outage w (ReqGetInfo dir) then (Thrown (Rejected (ReqGetInfo dir)), w1)
  else if bool_decide (dir ∈ directories w) || bool_decide (is_Some (files w !! dir))
  then
    if outage w (ReqDelete dir) then (Thrown (Rejected (ReqDelete dir)), w1)
    else (Returned tt,
          with_files (directories w ∖ {[dir]})
            (filter (fun kv => String.prefix dir (fst kv) = false) (files w)) w1)
  else (Returned tt, w1).
Proof.
  unfold clearAllData. rewrite try_catch_rethrow.
  unfold io_bind, AsyncStorage.multiRemove, PHOTOS_DIR,
    FileSystem.getInfoAsync, FileSystem.deleteAsync, request, io_ret.
  cbn zeta. destruct (outage w ReqMultiRemove); [done|]. world_simpl.
  destruct (outage w (ReqGetInfo _)); [done|].
  case_bool_decide as Hdir; world_simpl.
  - rewrite decide_True by done. world_simpl.
    by destruct (outage w (ReqDelete _)).
  - rewrite decide_False by done.
    destruct (files w !! _) as [n|] eqn:Hfile; world_simpl.
    + rewrite bool_decide_true by by eexists. world_simpl.
      by destruct (outage w (ReqDelete _)).
    + rewrite bool_decide_false; [done|]. by intros [? ?].
Qed.

Lemma clearAllData_store w :
  fst (clearAllData w) = Returned tt ->
  asyncStorage (snd (clearAllData w)) =
    delete USER_PROFILE_KEY
      (delete USER_PROGRESS_KEY (delete APP_STATE_KEY (asyncStorage w))).
Proof.
  rewrite clearAllData_run. cbn zeta.
  destruct (outage w ReqMultiRemove); [done|].
  destruct (outage w (ReqGetInfo _)); [done|].
  destruct (_ || _); [|done].
  by destruct (outage w (ReqDelete _)).
Qed.

(** A returned [clearAllData] has removed the profile, the progress
    record and the app state, and nothing else from the store: the
    notification settings stay, and so do the scheduled notifications.
    When the photos directory was there, no file is left under it; the
    files elsewhere stay. *)
Theorem clearAllData_returned w :
  fst (clearAllData w) = Returned tt ->
  asyncStorage (snd (clearAllData w)) =
    delete USER_PROFILE_KEY
      (delete USER_PROGRESS_KEY (delete APP_STATE_KEY (asyncStorage w))) /\
  stored_progress (snd (clearAllData w)) = None /\
  (forall key,
     key <> USER_PROFILE_KEY -> key <> USER_PROGRESS_KEY -> key <> APP_STATE_KEY ->
     asyncStorage (snd (clearAllData w)) !! key = asyncStorage w !! key) /\
  scheduled (snd (clearAllData w)) = scheduled w /\
  (documentDirectory w ++ "progress_photos/" ∈ directories w ->
   forall path,
     String.prefix (documentDirectory w ++ "progress_photos/") path = true ->
     files (snd (clearAllData w)) !! path = None) /\
  (forall path,
     String.prefix (documentDirectory w ++ "progress_photos/") path = false ->
     files (snd (clearAllData w)) !! path = files w !! path).
Proof.
  rewrite clearAllData_run. cbn zeta.
  assert (forall (m : gmap string Doc) key,
            key <> USER_PROFILE_KEY -> key <> USER_PROGRESS_KEY ->
            key <> APP_STATE_KEY ->
            delete USER_PROFILE_KEY
              (delete USER_PROGRESS_KEY (delete APP_STATE_KEY m)) !! key
            = m !! key) as Hother
    by (intros m key ? ? ?; by rewrite !lookup_delete_ne).
  assert (forall m : gmap string Doc,
            delete USER_PROFILE_KEY
              (delete USER_PROGRESS_KEY (delete APP_STATE_KEY m))
            !! USER_PROGRESS_KEY = None) as Hgone
    by (intros m; rewrite lookup_delete_ne by done; apply lookup_delete_eq).
  assert (forall path (f : gmap string Z) dir,
            String.prefix dir path = false ->
            filter (fun kv => String.prefix dir (fst kv) = false) f !! path
            = f !! path) as Hkept.
  { intros path f dir Hpre. destruct (f !! path) as [k|] eqn:Hpath.
    - by apply map_lookup_filter_Some.
    - apply map_lookup_filter_None. by left. }
  destruct (outage w ReqMultiRemove); [done|].
  destruct (outage w (ReqGetInfo _)); [done|].
  destruct (bool_decide (_ ∈ directories w)) eqn:Hdir; world_simpl.
  - destruct (outage w (ReqDelete _)); [done|]. intros _.
    unfold stored_progress. world_simpl. rewrite Hgone.
    repeat split; try done; try (by apply Hother); try (by intros; apply Hkept).
    intros _ path Hpre. apply map_lookup_filter_None. right.
    intros n _ Hkeep. simpl in Hkeep. congruence.
  - apply bool_decide_eq_false in Hdir.
    destruct (bool_decide (is_Some _)); world_simpl.
    + destruct (outage w (ReqDelete _)); [done|]. intros _.
      unfold stored_progress. world_simpl. rewrite Hgone.
      repeat split; try done; try (by apply Hother); by intros; apply Hkept.
    + intros _. unfold stored_progress. world_simpl. rewrite Hgone.
      repeat split; try done; by apply Hother.
Qed.

(** The photo that was saved is gone after the reset, and a call of
    [savePhoto] after the reset throws. *)
Lemma clearAllData_returned_witness :
  let w := later (clock_from (noon + MS_PER_DAY)) after_first_photo in
  files w !! localPath first_photo = Some 204800 /\
  fst (clearAllData w) = Returned tt /\
  stored_progress (snd (clearAllData w)) = None /\
  files (snd (clearAllData w)) !! localPath first_photo = None /\
  files (snd (clearAllData w)) !! camera_file = Some 204800.
Proof.
  intros w.
  assert (fst (clearAllData w) = Returned tt) as Hret by (vm_compute; reflexivity).
  destruct (clearAllData_returned w Hret) as (_ & Hgone & _ & _ & Hunder & Helse).
  split; [vm_compute; reflexivity|]. split; [exact Hret|]. split; [exact Hgone|].
  split.
  - apply Hunder; [vm_compute; set_solver | vm_compute; reflexivity].
  - rewrite Helse; vm_compute; reflexivity.
Defined.

(** After a reset, and as long as no progress record is stored,
    [savePhoto] throws and writes nothing to the store. *)
Theorem savePhoto_without_progress uri a w :
  stored_progress w = None ->
  exists e,
    fst (savePhoto uri a w) = Thrown e /\
    asyncStorage (snd (savePhoto uri a w)) = asyncStorage w /\
    ((forall q, outage w q = false) -> e = Error "User progress not found").
Proof.
  intros Hnone.
  destruct (savePhoto_run uri a w)
    as [(e & He & Hs & _)|(ph & p & _ & _ & _ & Hp & _)]; [|congruence].
  exists e. split; [done|]. split; [done|].
  intros Hserved. revert He. unfold savePhoto. rewrite try_catch_rethrow.
  destruct (initialize_run w) as (r0 & d & E0 & C0).
  destruct r0 as [[]|e0].
  2:{ destruct (C0 e0 eq_refl) as (q & Hq & _). by rewrite Hserved in Hq. }
  rewrite (bind_run _ _ _ _ _ E0). unfold io_bind at 1.
  rewrite getUserProgress_exact. simpl. rewrite Hserved.
  change (stored_progress (with_files d (files w) w)) with (stored_progress w).
  rewrite Hnone. simpl. by intros [= <-].
Qed.

Lemma savePhoto_without_progress_witness :
  let w := snd (clearAllData (later (clock_from (noon + MS_PER_DAY)) after_first_photo)) in
  fst (savePhoto camera_file front w) = Thrown (Error "User progress not found").
Proof.
  intros w.
  assert (stored_progress w = None) as Hnone by (vm_compute; reflexivity).
  destruct (savePhoto_without_progress camera_file front w Hnone)
    as (e & He & _ & Herr).
  rewrite He. f_equal. apply Herr. intros q. vm_compute. reflexivity.
Defined.

(** [initializeUser], write by write. *)
Lemma initializeUser_writes userProfile w :
  initializeUser userProfile w =
  let w1 := with_storage (<[USER_PROFILE_KEY := DocProfile userProfile]> (asyncStorage w)) w in
  let w2 :=
    with_storage
      (<[USER_PROGRESS_KEY :=
           DocProgress {| startDate := clock w (readings w);
                          currentStreak := 0; longestStreak := 0;
                          totalPhotos := 0; lastPhotoDate := None;
                          photos := [] |}]> (asyncStorage w1)) (tick w1) in
  let w3 :=
    with_storage
      (<[APP_STATE_KEY :=
           DocAppState {| isInitialized := true; onboardingCompleted := true;
                          lastActiveDate := clock w (1 + readings w)%nat |}]>
         (asyncStorage w2)) (tick w2) in
  if outage w (ReqSetItem USER_PROFILE_KEY)
  then (Thrown (Rejected (ReqSetItem USER_PROFILE_KEY)), w)
  else if outage w (ReqSetItem USER_PROGRESS_KEY)
  then (Thrown (Rejected (ReqSetItem USER_PROGRESS_KEY)), tick w1)
  else if outage w (ReqSetItem APP_STATE_KEY)
  then (Thrown (Rejected (ReqSetItem APP_STATE_KEY)), tick w2)
  else (Returned tt, w3).
Proof.
  unfold initializeUser. rewrite try_catch_rethrow.
  unfold io_bind, AsyncStorage.setItem, request, new_Date. cbn zeta.
  destruct (outage w (ReqSetItem USER_PROFILE_KEY)); [done|]. world_simpl.
  destruct (outage w (ReqSetItem USER_PROGRESS_KEY)); [done|]. world_simpl.
  by destruct (outage w (ReqSetItem APP_STATE_KEY)).
Qed.

(** [initializeUser] returns exactly when its three writes are served.
    It then holds the profile, an empty progress record that starts
    now - whatever record was there before - and the app state; no
    other key and no file is touched.  When it throws, the app state is
    as it was: the app is never marked as initialised by a call that
    failed. *)
Theorem initializeUser_outcome userProfile w :
  (fst (initializeUser userProfile w) = Returned tt <->
   outage w (ReqSetItem USER_PROFILE_KEY) = false /\
   outage w (ReqSetItem USER_PROGRESS_KEY) = false /\
   outage w (ReqSetItem APP_STATE_KEY) = false) /\
  (fst (initializeUser userProfile w) = Returned tt ->
   asyncStorage (snd (initializeUser userProfile w)) !! USER_PROFILE_KEY =
     Some (DocProfile userProfile) /\
   stored_progress (snd (initializeUser userProfile w)) =
     Some {| startDate := clock w (readings w);
             currentStreak := 0; longestStreak := 0; totalPhotos := 0;
             lastPhotoDate := None; photos := [] |} /\
   asyncStorage (snd (initializeUser userProfile w)) !! APP_STATE_KEY =
     Some (DocAppState {| isInitialized := true; onboardingCompleted := true;
                          lastActiveDate := clock w (1 + readings w)%nat |}) /\
   (forall key,
      key <> USER_PROFILE_KEY -> key <> USER_PROGRESS_KEY -> key <> APP_STATE_KEY ->
      asyncStorage (snd (initializeUser userProfile w)) !! key =
      asyncStorage w !! key) /\
   files (snd (initializeUser userProfile w)) = files w) /\
  (forall e,
     fst (initializeUser userProfile w) = Thrown e ->
     asyncStorage (snd (initializeUser userProfile w)) !! APP_STATE_KEY =
     asyncStorage w !! APP_STATE_KEY).
Proof.
  rewrite initializeUser_writes. cbn zeta.
  destruct (outage w (ReqSetItem USER_PROFILE_KEY));
    [split; [split; [done | by intros (? & _)] | by split] |].
  destruct (outage w (ReqSetItem USER_PROGRESS_KEY)).
  { split; [split; [done | by intros (_ & ? & _)] |]. split; [done|].
    intros e _. world_simpl. by rewrite lookup_insert_ne. }
  destruct (outage w (ReqSetItem APP_STATE_KEY)).
  { split; [split; [done | by intros (_ & _ & ?)] |]. split; [done|].
    intros e _. world_simpl. by rewrite !lookup_insert_ne. }
  split; [done|]. split; [|done]. intros _.
  unfold stored_progress. world_simpl.
  split; [by rewrite !lookup_insert_ne, lookup_insert_eq by done|].
  split; [by rewrite lookup_insert_ne, lookup_insert_eq by done|].
  split; [by rewrite lookup_insert_eq|]. split; [|done].
  intros key ? ? ?. by rewrite !lookup_insert_ne.
Qed.

(** The record of a user with photos is replaced by an empty one when
    the user is initialised again; the files of the photos stay. *)
Lemma initializeUser_outcome_witness :
  let w := later (clock_from (noon + MS_PER_DAY)) after_first_photo in
  stored_progress w = Some first_record /\
  fst (initializeUser sample_profile w) = Returned tt /\
  stored_progress (snd (initializeUser sample_profile w)) =
    Some {| startDate := noon + MS_PER_DAY;
            currentStreak := 0; longestStreak := 0; totalPhotos := 0;
            lastPhotoDate := None; photos := [] |} /\
  files (snd (initializeUser sample_profile w)) !! localPath first_photo =
    Some 204800.
Proof.
  intros w.
  destruct (initializeUser_outcome sample_profile w) as ([_ Hserved] & Hdone & _).
  assert (fst (initializeUser sample_profile w) = Returned tt) as Hret
    by (apply Hserved; repeat split; vm_compute; reflexivity).
  destruct (Hdone Hret) as (_ & Hfresh & _ & _ & Hfiles).
  split; [vm_compute; reflexivity|]. split; [exact Hret|].
  split; [exact Hfresh|].
  rewrite Hfiles. vm_compute. reflexivity.
Defined.

(** [checkInitialization] never throws and never changes the world. *)
Lemma checkInitialization_run w :
  exists status, checkInitialization w = (Returned status, w).
Proof.
  unfold checkInitialization, try_catch, io_bind, AsyncStorage.getItem,
    request, io_ret.
  destruct (outage w (ReqGetItem APP_STATE_KEY)); [by eauto|].
  destruct (outage w (ReqGetItem USER_PROFILE_KEY)); [by eauto|].
  destruct (asyncStorage w !! APP_STATE_KEY) as [[?|?|?|?|[|??]]|];
    destruct (asyncStorage w !! USER_PROFILE_KEY) as [[?|?|?|?|[|??]]|];
    by eauto.
Qed.

(** After a returned [initializeUser], [checkInitialization] reports an
    initialised app that needs no onboarding - as long as its two reads
    are served: a rejected read is reported as an app that was never
    set up. *)
Theorem checkInitialization_after_initializeUser userProfile w :
  fst (initializeUser userProfile w) = Returned tt ->
  checkInitialization (snd (initializeUser userProfile w)) =
  (Returned
     (if outage w (ReqGetItem APP_STATE_KEY) || outage w (ReqGetItem USER_PROFILE_KEY)
      then {| InitializationStatus.isInitialized := false;
              InitializationStatus.needsOnboarding := true |}
      else {| InitializationStatus.isInitialized := true;
              InitializationStatus.needsOnboarding := false |}),
   snd (initializeUser userProfile w)).
Proof.
  rewrite initializeUser_writes. cbn zeta.
  destruct (outage w (ReqSetItem USER_PROFILE_KEY)); [done|].
  destruct (outage w (ReqSetItem USER_PROGRESS_KEY)); [done|].
  destruct (outage w (ReqSetItem APP_STATE_KEY)); [done|]. intros _.
  unfold checkInitialization, try_catch, io_bind, AsyncStorage.getItem,
    request, io_ret. world_simpl.
  destruct (outage w (ReqGetItem APP_STATE_KEY)); [reflexivity|]. world_simpl.
  destruct (outage w (ReqGetItem USER_PROFILE_KEY)); [reflexivity|]. world_simpl.
  rewrite lookup_insert_eq.
  rewrite !lookup_insert_ne, lookup_insert_eq by done. reflexivity.
Qed.

Lemma checkInitialization_after_initializeUser_witness :
  fst (checkInitialization onboarded) =
  Returned {| InitializationStatus.isInitialized := true;
              InitializationStatus.needsOnboarding := false |}.
Proof.
  assert (fst (initializeUser sample_profile (device (clock_from noon) ∅))
          = Returned tt) as Hret by (vm_compute; reflexivity).
  unfold onboarded.
  by rewrite (checkInitialization_after_initializeUser _ _ Hret).
Defined.

(** After a returned [clearAllData], [checkInitialization] reports an
    app that is not initialised and needs onboarding. *)
Theorem checkInitialization_after_clearAllData w :
  fst (clearAllData w) = Returned tt ->
  checkInitialization (snd (clearAllData w)) =
  (Returned {| InitializationStatus.isInitialized := false;
               InitializationStatus.needsOnboarding := true |},
   snd (clearAllData w)).
Proof.
  intros Hret.
  pose proof (clearAllData_store w Hret) as Hstore.
  unfold checkInitialization, try_catch, io_bind, AsyncStorage.getItem,
    request, io_ret.
  destruct (outage _ (ReqGetItem APP_STATE_KEY)); [done|].
  destruct (outage _ (ReqGetItem USER_PROFILE_KEY)); [done|].
  rewrite Hstore.
  rewrite !(lookup_delete_ne _ _ APP_STATE_KEY) by done.
  by rewrite lookup_delete_eq.
Qed.

Lemma checkInitialization_after_clearAllData_witness :
  let w := later (clock_from (noon + MS_PER_DAY)) after_first_photo in
  fst (checkInitialization w) =
    Returned {| InitializationStatus.isInitialized := true;
                InitializationStatus.needsOnboarding := false |} /\
  fst (checkInitialization (snd (clearAllData w))) =
    Returned {| InitializationStatus.isInitialized := false;
                InitializationStatus.needsOnboarding := true |}.
Proof.
  intros w. split; [vm_compute; reflexivity|].
  assert (fst (clearAllData w) = Returned tt) as Hret by (vm_compute; reflexivity).
  by rewrite (checkInitialization_after_clearAllData w Hret).
Defined.

(** ** Has a photo been taken today? *)

(** [hasTakenPhotoToday] never throws.  It answers [false] when no
    progress record can be read or no photo was taken yet; otherwise it
    compares the local date, month and year of the clock with those of
    [lastPhotoDate]. *)
Lemma hasTakenPhotoToday_run zone w :
  hasTakenPhotoToday zone w =
  match (if outage w (ReqGetItem USER_PROGRESS_KEY) then None
         else stored_progress w) ≫= lastPhotoDate with
  | None => (Returned false, w)
  | Some last =>
      (Returned
         ((getDate zone (clock w (readings w)) =? getDate zone last)%Z &&
          (getMonth zone (clock w (readings w)) =? getMonth zone last)%Z &&
          (getFullYear zone (clock w (readings w)) =? getFullYear zone last)%Z),
       tick w)
  end.
Proof.
  unfold hasTakenPhotoToday, try_catch. unfold io_bind at 1.
  rewrite getUserProgress_exact.
  destruct (if outage w _ then None else stored_progress w) as [p|]; [|done].
  simpl. by destruct (lastPhotoDate p).
Qed.

(** After a returned [savePhoto], [hasTakenPhotoToday] answers [true]
    as long as the clock shows the local calendar day of the capture,
    and [false] from the next local day on, however short the time
    since the capture; a rejected read is answered [false].  Before the
    first photo the answer is [false]. *)
Theorem hasTakenPhotoToday_after_savePhoto zone uri a w photo w2 :
  fst (savePhoto uri a w) = Returned photo ->
  asyncStorage w2 = asyncStorage (snd (savePhoto uri a w)) ->
  outage w2 (ReqGetItem USER_PROGRESS_KEY) = false ->
  fst (hasTakenPhotoToday zone w2) =
  Returned
    (bool_decide
       (getDate zone (clock w2 (readings w2)) =
          getDate zone (clock w (3 + readings w)%nat) /\
        getMonth zone (clock w2 (readings w2)) =
          getMonth zone (clock w (3 + readings w)%nat) /\
        getFullYear zone (clock w2 (readings w2)) =
          getFullYear zone (clock w (3 + readings w)%nat))).
Proof.
  intros Hret Hstore Hserved.
  destruct (savePhoto_returned _ _ _ _ Hret)
    as (p & p' & _ & Hp' & _ & _ & _ & Hlast & _).
  rewrite hasTakenPhotoToday_run, Hserved.
  rewrite (stored_progress_kept _ _ Hstore), Hp'. simpl. rewrite Hlast. simpl.
  f_equal.
  repeat match goal with
    | |- context [(?x =? ?y)%Z] => destruct (Z.eqb_spec x y)
    end; simpl;
    first [ by rewrite bool_decide_true
          | rewrite bool_decide_false; [done|]; by intros (? & ? & ?) ].
Qed.

(** The first photo is from 14 November, 12:01 UTC.  At 23:00 of that
    day the answer is [true]; at 00:30 of 15 November it is [false]. *)
Lemma hasTakenPhotoToday_after_savePhoto_witness :
  let w := later (clock_from (noon + 60000)) onboarded in
  fst (hasTakenPhotoToday utc (later (clock_from (noon + 11 * 3600000)) after_first_photo))
    = Returned true /\
  fst (hasTakenPhotoToday utc
         (later (clock_from (noon + 12 * 3600000 + 1800000)) after_first_photo))
    = Returned false.
Proof.
  intros w.
  assert (fst (savePhoto camera_file front w) = Returned first_photo) as Hret
    by (vm_compute; reflexivity).
  assert (forall t,
            asyncStorage (later t after_first_photo) =
            asyncStorage (snd (savePhoto camera_file front w))) as Hstore
    by (intros t; vm_compute; reflexivity).
  assert (forall t,
            outage (later t after_first_photo) (ReqGetItem USER_PROGRESS_KEY)
            = false) as Hserved
    by (intros t; vm_compute; reflexivity).
  split.
  - rewrite (hasTakenPhotoToday_after_savePhoto utc camera_file front w
               first_photo _ Hret (Hstore _) (Hserved _)).
    vm_compute. reflexivity.
  - rewrite (hasTakenPhotoToday_after_savePhoto utc camera_file front w
               first_photo _ Hret (Hstore _) (Hserved _)).
    vm_compute. reflexivity.
Defined.

(** ** The profile store *)

(** After a returned [initializeUser] of the profile store,
    [isUserInitialized] answers [true]; after a returned [clearAllData]
    it answers [false].  It never throws: a rejected read is answered
    [false]. *)
Theorem storageService_isUserInitialized profile w :
  (exists answer, storageService.isUserInitialized w = (Returned answer, w)) /\
  (fst (storageService.initializeUser profile w) = Returned tt ->
   fst (storageService.isUserInitialized
          (snd (storageService.initializeUser profile w))) =
   Returned
     (negb (outage w (ReqGetItem storageService.STORAGE_KEYS.ONBOARDING_COMPLETED) ||
            outage w (ReqGetItem storageService.STORAGE_KEYS.USER_PROFILE)))) /\
  (fst (storageService.clearAllData w) = Returned tt ->
   fst (storageService.isUserInitialized (snd (storageService.clearAllData w))) =
   Returned false).
Proof.
  split; [|split].
  - unfold storageService.isUserInitialized, try_catch, io_bind,
      AsyncStorage.getItem, request, io_ret.
    destruct (outage w (ReqGetItem _)); [by eauto|].
    destruct (outage w (ReqGetItem _)); by eauto.
  - unfold storageService.initializeUser. rewrite try_catch_rethrow.
    unfold io_bind, AsyncStorage.setItem, request.
    destruct (outage w (ReqSetItem _)); [done|]. world_simpl.
    destruct (outage w (ReqSetItem _)); [done|]. intros _.
    unfold storageService.isUserInitialized, try_catch, io_bind,
      AsyncStorage.getItem, request, io_ret. world_simpl.
    destruct (outage w (ReqGetItem _)); [reflexivity|]. world_simpl.
    destruct (outage w (ReqGetItem _)); [reflexivity|]. world_simpl.
    rewrite lookup_insert_eq.
    rewrite lookup_insert_ne, lookup_insert_eq by done. reflexivity.
  - unfold storageService.clearAllData. rewrite try_catch_rethrow.
    unfold AsyncStorage.multiRemove, request.
    destruct (outage w ReqMultiRemove); [done|]. intros _.
    unfold storageService.isUserInitialized, try_catch, io_bind,
      AsyncStorage.getItem, request, io_ret. world_simpl.
    destruct (outage w (ReqGetItem _)); [reflexivity|]. world_simpl.
    destruct (outage w (ReqGetItem _)); [reflexivity|]. world_simpl.
    cbn [foldr].
    rewrite (lookup_delete_ne _ storageService.STORAGE_KEYS.USER_PROFILE) by done.
    by rewrite lookup_delete_eq.
Qed.

Lemma storageService_isUserInitialized_witness :
  let w := device (clock_from noon) ∅ in
  fst (storageService.isUserInitialized w) = Returned false /\
  fst (storageService.isUserInitialized
         (snd (storageService.initializeUser sample_profile w))) = Returned true /\
  fst (storageService.isUserInitialized
         (snd (storageService.clearAllData
                (snd (storageService.initializeUser sample_profile w)))))
    = Returned false.
Proof.
  intros w.
  destruct (storageService_isUserInitialized sample_profile w) as (_ & Hset & _).
  destruct (storageService_isUserInitialized sample_profile
              (snd (storageService.initializeUser sample_profile w)))
    as (_ & _ & Hreset).
  split; [vm_compute; reflexivity|]. split.
  - rewrite Hset; vm_compute; reflexivity.
  - apply Hreset. vm_compute. reflexivity.
Defined.

(** ** Notification settings and schedules *)

(** [scheduleAllNotifications], in one equation. *)
Lemma scheduleAllNotifications_run w :
  scheduleAllNotifications w =
  (Returned tt,
   with_notifier (if outage w ReqCancelAll then scheduled w else [])
     (presented w) (notifier_calls w ++ [CallCancelAll])%list (issued w) w).
Proof.
  unfold scheduleAllNotifications, try_catch, io_bind,
    Notifications.cancelAllScheduledNotificationsAsync, io_bind,
    Notifications.record_call, request, hasPermissions, try_catch,
    Notifications.getPermissionsAsync, request, io_ret.
  world_simpl. destruct (outage w ReqCancelAll); [done|]. world_simpl.
  destruct (outage w ReqGetPermissions); [done|]. world_simpl.
  by destruct (permission_granted w).
Qed.

(** [scheduleAllNotifications] never throws, and it schedules nothing:
    it asks for the cancellation of every scheduled notification, and
    what is scheduled afterwards is nothing at all - or, when the
    cancellation is rejected, what was scheduled before.  Neither the
    daily nor the weekly notification is ever scheduled by it, with or
    without permission, whatever the settings; nothing is presented and
    nothing is stored. *)
Theorem scheduleAllNotifications_effect w :
  fst (scheduleAllNotifications w) = Returned tt /\
  scheduled (snd (scheduleAllNotifications w)) =
    (if outage w ReqCancelAll then scheduled w else []) /\
  presented (snd (scheduleAllNotifications w)) = presented w /\
  issued (snd (scheduleAllNotifications w)) = issued w /\
  asyncStorage (snd (scheduleAllNotifications w)) = asyncStorage w.
Proof. by rewrite scheduleAllNotifications_run. Qed.

(** [getSettings] never throws and never changes the world: it gives
    the stored settings, and the defaults when nothing is stored or the
    read is rejected. *)
Lemma getSettings_run w :
  getSettings w =
  (Returned
     (if outage w (ReqGetItem (STORAGE_PREFIX ++ NOTIFICATION_KEYS.SETTINGS))
      then DEFAULT_SETTINGS
      else match asyncStorage w !! (STORAGE_PREFIX ++ NOTIFICATION_KEYS.SETTINGS) with
           | Some (DocSettings settings) => settings
           | _ => DEFAULT_SETTINGS
           end), w).
Proof.
  unfold getSettings, try_catch, io_bind, storage.getString,
    AsyncStorage.getItem, request, io_ret, throw.
  destruct (outage w _); [done|].
  by destruct (asyncStorage w !! _) as [[?|?|?|?|[|??]]|].
Qed.

(** [saveSettings] never throws.  When its write is served, the settings
    it was given are what [getSettings] gives afterwards, and no other
    key has changed; when the write is rejected it returns all the same,
    with the store as it was. *)
Theorem saveSettings_then_getSettings settings w :
  fst (saveSettings settings w) = Returned tt /\
  (outage w (ReqSetItem (STORAGE_PREFIX ++ NOTIFICATION_KEYS.SETTINGS)) = false ->
   asyncStorage (snd (saveSettings settings w)) =
     <[STORAGE_PREFIX ++ NOTIFICATION_KEYS.SETTINGS := DocSettings settings]>
       (asyncStorage w) /\
   fst (getSettings (snd (saveSettings settings w))) =
     Returned
       (if outage w (ReqGetItem (STORAGE_PREFIX ++ NOTIFICATION_KEYS.SETTINGS))
        then DEFAULT_SETTINGS else settings)) /\
  (outage w (ReqSetItem (STORAGE_PREFIX ++ NOTIFICATION_KEYS.SETTINGS)) = true ->
   asyncStorage (snd (saveSettings settings w)) = asyncStorage w).
Proof.
  unfold saveSettings, try_catch, io_bind, storage.set, AsyncStorage.setItem,
    request.
  destruct (outage w (ReqSetItem _)); [by repeat split|].
  rewrite scheduleAllNotifications_run. world_simpl.
  split; [done|]. split; [|done]. intros _. split; [done|].
  rewrite getSettings_run. world_simpl.
  destruct (outage w (ReqGetItem _)); [done|].
  by rewrite lookup_insert_eq.
Qed.

Lemma saveSettings_then_getSettings_witness :
  let quiet :=
    {| dailyReminder := {| DailyReminder.enabled := false; DailyReminder.time := "07:30" |};
       streakCelebration :=
         {| StreakCelebration.enabled := true; StreakCelebration.milestones := [5; 10] |};
       weeklyProgress :=
         {| WeeklyProgress.enabled := false; WeeklyProgress.day := 3;
            WeeklyProgress.time := "09:00" |};
       graceReminder :=
         {| GraceReminder.enabled := false; GraceReminder.hoursAfterMissed := 6 |} |} in
  fst (getSettings shared_device) = Returned DEFAULT_SETTINGS /\
  fst (getSettings (snd (saveSettings quiet shared_device))) = Returned quiet.
Proof.
  intros quiet.
  destruct (saveSettings_then_getSettings quiet shared_device) as (_ & Hsaved & _).
  split; [vm_compute; reflexivity|].
  destruct Hsaved as [_ Hread]; [vm_compute; reflexivity|].
  rewrite Hread. vm_compute. reflexivity.
Defined.

(** With the identifier of the daily reminder in the store and every
    request served, [cancelDailyReminder] takes the notifications of
    that identifier, and no other, off the schedule and forgets the
    identifier; run again, it does nothing. *)
Theorem cancelDailyReminder_effect identifier w :
  (forall q, outage w q = false) ->
  asyncStorage w !! (STORAGE_PREFIX ++ NOTIFICATION_KEYS.DAILY_REMINDER_ID)
    = Some (DocText identifier) ->
  identifier <> "" ->
  fst (cancelDailyReminder w) = Returned tt /\
  scheduled (snd (cancelDailyReminder w)) =
    filter (fun entry => fst entry <> identifier) (scheduled w) /\
  presented (snd (cancelDailyReminder w)) = presented w /\
  asyncStorage (snd (cancelDailyReminder w)) =
    delete (STORAGE_PREFIX ++ NOTIFICATION_KEYS.DAILY_REMINDER_ID) (asyncStorage w) /\
  cancelDailyReminder (snd (cancelDailyReminder w)) =
    (Returned tt, snd (cancelDailyReminder w)).
Proof.
  intros Hserved Hid Hne.
  assert (cancelDailyReminder w =
          (Returned tt,
           with_storage
             (delete (STORAGE_PREFIX ++ NOTIFICATION_KEYS.DAILY_REMINDER_ID)
                (asyncStorage w))
             (with_notifier
                (filter (fun entry => fst entry <> identifier) (scheduled w))
                (presented w) (notifier_calls w ++ [CallCancel identifier])%list
                (issued w) w))) as Hrun.
  { unfold cancelDailyReminder, try_catch, io_bind, storage.getString,
      storage.delete, AsyncStorage.getItem, AsyncStorage.removeItem,
      Notifications.cancelScheduledNotificationAsync, io_bind,
      Notifications.record_call, request, io_ret.
    rewrite Hserved, Hid. cbn [fmap option_fmap option_map text_of].
    destruct identifier as [|c rest]; [done|].
    world_simpl. rewrite Hserved. world_simpl. by rewrite Hserved. }
  rewrite Hrun. world_simpl. repeat split.
  unfold cancelDailyReminder, try_catch, io_bind, storage.getString,
    AsyncStorage.getItem, request, io_ret.
  world_simpl. rewrite Hserved. world_simpl. by rewrite lookup_delete_eq.
Qed.

Lemma cancelDailyReminder_effect_witness :
  let w :=
    with_storage {[ "notifications_daily_reminder_id" := DocText "other-1" ]}
      shared_device in
  scheduled w = [("other-1", foreign_reminder)] /\
  fst (cancelDailyReminder w) = Returned tt /\
  scheduled (snd (cancelDailyReminder w)) = [] /\
  asyncStorage (snd (cancelDailyReminder w)) !! "notifications_daily_reminder_id"
    = None.
Proof.
  intros w.
  destruct (cancelDailyReminder_effect "other-1" w)
    as (Hret & Hsched & _ & Hstore & _).
  - intros q. vm_compute. reflexivity.
  - vm_compute. reflexivity.
  - discriminate.
  - split; [vm_compute; reflexivity|]. split; [exact Hret|].
    split; [rewrite Hsched; vm_compute; reflexivity|].
    rewrite Hstore. vm_compute. reflexivity.
Defined.

(** The three scheduling methods read the settings through a promise
    they do not await: each of them returns with the world exactly as
    it was, in every world.  No daily, weekly or grace reminder is ever
    scheduled, and no identifier is ever stored. *)
Theorem schedulers_do_nothing zone w :
  scheduleDailyReminder w = (Returned tt, w) /\
  scheduleWeeklyProgress w = (Returned tt, w) /\
  scheduleGraceReminder zone w = (Returned tt, w).
Proof. repeat split. Qed.
